(** * Smart reply service: reply-generation pipeline

    A shallow embedding of [app/services/reply_service.py] together with the
    schema types of [app/schemas/reply.py] and the one setting of
    [app/core/config.py] that the pipeline reads.

    - Python [str] is [string]; the text domain of the model is ASCII:
      [str.lower], [str.upper], [str.isspace] and the regular-expression
      class [\w] are the ASCII restrictions of the Python operations.
    - Python [float] is the binary64 type [float] of [PrimFloat], so that
      [0.8 - 1 * 0.1] is the same number as in the interpreter.
    - Python [int] is [Z]; loop indices produced by [enumerate] are [nat].
    - An exception is a value [Raise e] of the [result] type.
    - The language-model backend is an oracle: a function from the arguments
      of the generation call to what the call and the decoding of each
      returned sequence do. *)

From Stdlib Require Import ZArith List Bool Lia Ascii String Floats Uint63.
From Stdlib Require Import Numbers.DecimalString.
Import ListNotations.

Set Warnings "-inexact-float".

Open Scope string_scope.
Open Scope list_scope.

(* ------------------------------------------------------------------ *)
(** ** Exceptions *)

Inductive exn : Type :=
| IndexError
| KeyError
| ValidationError.

Inductive result (A : Type) : Type :=
| Ok (a : A)
| Raise (e : exn).

Arguments Ok {A} a.
Arguments Raise {A} e.

Definition bind {A B : Type} (r : result A) (k : A -> result B) : result B :=
  match r with
  | Ok a => k a
  | Raise e => Raise e
  end.

Notation "x <- r ;; k" := (bind r (fun x => k))
  (at level 61, r at next level, right associativity).

(* ------------------------------------------------------------------ *)
(** ** Python sequence operations *)

Module Py.

(** [l[:n]] *)
Definition slice_to {A : Type} (l : list A) (n : Z) : list A :=
  if (0 <=? n)%Z then firstn (Z.to_nat n) l
  else firstn (List.length l - Z.to_nat (- n)) l.

(** [l[start:]] *)
Definition slice_from {A : Type} (l : list A) (start : Z) : list A :=
  if (0 <=? start)%Z then skipn (Z.to_nat start) l
  else skipn (List.length l - Z.to_nat (- start)) l.

(** [l[-1]] *)
Definition last_item {A : Type} (l : list A) : result A :=
  match rev l with
  | [] => Raise IndexError
  | x :: _ => Ok x
  end.

(** [d.get(k, default)] on a dict kept as an association list in insertion
    order. *)
Fixpoint dict_get {K V : Type} (eqb : K -> K -> bool)
    (d : list (K * V)) (k : K) (default : V) : V :=
  match d with
  | [] => default
  | (k', v) :: d' => if eqb k' k then v else dict_get eqb d' k default
  end.

(** [d[k]] *)
Fixpoint dict_item {K V : Type} (eqb : K -> K -> bool)
    (d : list (K * V)) (k : K) : result V :=
  match d with
  | [] => Raise KeyError
  | (k', v) :: d' => if eqb k' k then Ok v else dict_item eqb d' k
  end.

(** [float(n)] for a loop index. *)
Definition float_of_nat (n : nat) : float :=
  PrimFloat.of_uint63 (Uint63.of_Z (Z.of_nat n)).

(** [str(n)] for a non-negative int. *)
Definition str_of_nat (n : nat) : string :=
  NilZero.string_of_uint (Nat.to_uint n).

(** *** Characters *)

Definition is_upper (c : ascii) : bool :=
  let n := nat_of_ascii c in (65 <=? n)%nat && (n <=? 90)%nat.

Definition is_lower (c : ascii) : bool :=
  let n := nat_of_ascii c in (97 <=? n)%nat && (n <=? 122)%nat.

Definition is_digit (c : ascii) : bool :=
  let n := nat_of_ascii c in (48 <=? n)%nat && (n <=? 57)%nat.

Definition lower_char (c : ascii) : ascii :=
  if is_upper c then ascii_of_nat (nat_of_ascii c + 32) else c.

Definition upper_char (c : ascii) : ascii :=
  if is_lower c then ascii_of_nat (nat_of_ascii c - 32) else c.

(** [c.isspace()]: tab, newline, vertical tab, form feed, carriage return,
    the four separators 0x1c..0x1f and the space. *)
Definition is_space (c : ascii) : bool :=
  let n := nat_of_ascii c in
  ((9 <=? n)%nat && (n <=? 13)%nat)
  || ((28 <=? n)%nat && (n <=? 31)%nat)
  || (n =? 32)%nat.

(** The class [\w]. *)
Definition is_word (c : ascii) : bool :=
  is_upper c || is_lower c || is_digit c || (nat_of_ascii c =? 95)%nat.

Definition newline : ascii := ascii_of_nat 10.

(** *** Strings *)

Fixpoint map_string (f : ascii -> ascii) (s : string) : string :=
  match s with
  | EmptyString => EmptyString
  | String c s' => String (f c) (map_string f s')
  end.

(** [s.lower()] *)
Definition lower (s : string) : string := map_string lower_char s.

(** [s[n:]] for [n >= 0] *)
Fixpoint drop (n : nat) (s : string) : string :=
  match n, s with
  | O, _ => s
  | S _, EmptyString => EmptyString
  | S n', String _ s' => drop n' s'
  end.

(** [s.startswith(p)] *)
Fixpoint startswith (p s : string) : bool :=
  match p, s with
  | EmptyString, _ => true
  | String _ _, EmptyString => false
  | String a p', String b s' => Ascii.eqb a b && startswith p' s'
  end.

(** [old in s] *)
Fixpoint contains (old s : string) : bool :=
  startswith old s ||
  match s with
  | EmptyString => false
  | String _ s' => contains old s'
  end.

(** [s.replace(old, new)]: every occurrence of [old], found from the left
    and not overlapping, becomes [new].  [skip] counts the characters of the
    occurrence just replaced that are still to be passed over.  With an
    empty [old] Python puts [new] before every character and at the end. *)
Fixpoint replace_from (old new s : string) (skip : nat) : string :=
  match s with
  | EmptyString =>
      match old with
      | EmptyString => new
      | String _ _ => EmptyString
      end
  | String c s' =>
      match skip with
      | S k => replace_from old new s' k
      | O =>
          match old with
          | EmptyString => new ++ String c (replace_from old new s' 0)
          | String _ _ =>
              if startswith old s
              then new ++ replace_from old new s' (String.length old - 1)
              else String c (replace_from old new s' 0)
          end
      end
  end.

Definition replace (s old new : string) : string := replace_from old new s 0.

(** [sep.join(parts)] *)
Fixpoint join (sep : string) (parts : list string) : string :=
  match parts with
  | [] => EmptyString
  | [p] => p
  | p :: rest => p ++ sep ++ join sep rest
  end.

Fixpoint lstrip (s : string) : string :=
  match s with
  | EmptyString => EmptyString
  | String c s' => if is_space c then lstrip s' else s
  end.

(** Removes trailing white space. *)
Fixpoint rstrip (s : string) : string :=
  match s with
  | EmptyString => EmptyString
  | String c s' =>
      match rstrip s' with
      | EmptyString => if is_space c then EmptyString else String c EmptyString
      | r => String c r
      end
  end.

(** [s.strip()] *)
Definition strip (s : string) : string := rstrip (lstrip s).

(** [s.split()]: the maximal runs of characters that are not white space.
    [cur] is the run being read, in reverse. *)
Fixpoint rev_string (acc s : string) : string :=
  match s with
  | EmptyString => acc
  | String c s' => rev_string (String c acc) s'
  end.

Fixpoint split_from (cur : string) (s : string) : list string :=
  match s with
  | EmptyString =>
      match cur with
      | EmptyString => []
      | _ => [rev_string EmptyString cur]
      end
  | String c s' =>
      if is_space c then
        match cur with
        | EmptyString => split_from EmptyString s'
        | _ => rev_string EmptyString cur :: split_from EmptyString s'
        end
      else split_from (String c cur) s'
  end.

Definition split (s : string) : list string := split_from EmptyString s.

(** [s[-1]] of a non-empty string, [None] on the empty one. *)
Fixpoint last_char (s : string) : option ascii :=
  match s with
  | EmptyString => None
  | String c EmptyString => Some c
  | String _ s' => last_char s'
  end.

(** [c in chars] for a single character [c]. *)
Fixpoint char_in (c : ascii) (chars : string) : bool :=
  match chars with
  | EmptyString => false
  | String d chars' => Ascii.eqb c d || char_in c chars'
  end.

End Py.

(* ------------------------------------------------------------------ *)
(** ** Regular expressions ([re.search]) *)

Module Re.

(** The fragment of the pattern language that the service uses. *)
Inductive regex : Type :=
| Lit (s : string)          (* literal characters *)
| Seq (r1 r2 : regex)       (* concatenation *)
| Or (r1 r2 : regex)        (* r1|r2 *)
| WordB                     (* \b *)
| Eos.                      (* $ without re.MULTILINE *)

(** [(w1|w2|...)] *)
Fixpoint alt (first : string) (others : list string) : regex :=
  match others with
  | [] => Lit first
  | w :: ws => Or (Lit first) (alt w ws)
  end.

(** [\b(w1|w2|...)\b] *)
Definition words (first : string) (others : list string) : regex :=
  Seq WordB (Seq (alt first others) WordB).

Definition char_at (text : string) (pos : nat) : option ascii :=
  String.get pos text.

Definition word_at (text : string) (pos : nat) : bool :=
  match char_at text pos with
  | Some c => Py.is_word c
  | None => false
  end.

(** [\b] holds at [pos] when exactly one of the characters before and after
    the position is a word character; outside the text there is none. *)
Definition boundary (text : string) (pos : nat) : bool :=
  let before := match pos with O => false | S p => word_at text p end in
  xorb before (word_at text pos).

(** [$] holds at the end of the text and just before a final newline. *)
Definition at_end (text : string) (pos : nat) : bool :=
  (pos =? String.length text)%nat
  || ((S pos =? String.length text)%nat
      && match char_at text pos with
         | Some c => Ascii.eqb c Py.newline
         | None => false
         end).

Definition char_eq (ignorecase : bool) (a b : ascii) : bool :=
  if ignorecase then Ascii.eqb (Py.lower_char a) (Py.lower_char b)
  else Ascii.eqb a b.

Fixpoint lit_prefix (ignorecase : bool) (p s : string) : bool :=
  match p, s with
  | EmptyString, _ => true
  | String _ _, EmptyString => false
  | String a p', String b s' => char_eq ignorecase a b && lit_prefix ignorecase p' s'
  end.

(** The positions at which a match of [r] that starts at [pos] can end. *)
Fixpoint ends (ignorecase : bool) (r : regex) (text : string) (pos : nat)
  : list nat :=
  match r with
  | Lit s =>
      if lit_prefix ignorecase s (Py.drop pos text)
      then [pos + String.length s] else []
  | Seq r1 r2 =>
      flat_map (ends ignorecase r2 text) (ends ignorecase r1 text pos)
  | Or r1 r2 => ends ignorecase r1 text pos ++ ends ignorecase r2 text pos
  | WordB => if boundary text pos then [pos] else []
  | Eos => if at_end text pos then [pos] else []
  end.

Definition matches_at (ignorecase : bool) (r : regex) (text : string)
    (pos : nat) : bool :=
  match ends ignorecase r text pos with
  | [] => false
  | _ :: _ => true
  end.

(** [re.search(r, text, flags)] as a truth value: some start position has a
    match. *)
Definition search (ignorecase : bool) (r : regex) (text : string) : bool :=
  existsb (matches_at ignorecase r text) (seq 0 (S (String.length text))).

End Re.

(* ------------------------------------------------------------------ *)
(** ** Schemas ([app/schemas/reply.py]) *)

Inductive ReplyTone : Type :=
| PROFESSIONAL
| FRIENDLY
| CASUAL
| FORMAL.

Inductive ReplyIntent : Type :=
| ACKNOWLEDGE
| AGREE
| DISAGREE
| QUESTION
| ANSWER
| THANKS
| GREETING
| FAREWELL
| SUGGESTION
| GENERAL.

Definition ReplyIntent_eqb (a b : ReplyIntent) : bool :=
  match a, b with
  | ACKNOWLEDGE, ACKNOWLEDGE | AGREE, AGREE | DISAGREE, DISAGREE
  | QUESTION, QUESTION | ANSWER, ANSWER | THANKS, THANKS
  | GREETING, GREETING | FAREWELL, FAREWELL | SUGGESTION, SUGGESTION
  | GENERAL, GENERAL => true
  | _, _ => false
  end.

Record Message : Type := {
  msg_id : option string;
  content : string;
  sender_id : string;
  sender_name : option string;
  timestamp : option Z;
  is_current_user : bool
}.

Record ConversationContext : Type := {
  messages : list Message;
  channel_name : option string;
  channel_type : option string;
  workspace_id : option string
}.

Record ReplyRequest : Type := {
  context : ConversationContext;
  current_user_id : string;
  current_user_name : option string;
  tone : ReplyTone;
  num_suggestions : Z;
  max_length : Z;
  include_quick_replies : bool
}.

Record ReplySuggestion : Type := {
  text : string;
  confidence : float;
  intent : ReplyIntent;
  suggestion_tone : ReplyTone;
  is_quick_reply : bool
}.

Record ReplyResponse : Type := {
  suggestions : list ReplySuggestion;
  context_summary : option string;
  processing_time_ms : float;
  model_version : string
}.

Record QuickReplyRequest : Type := {
  last_message : string;
  quick_sender_name : option string
}.

Record QuickReplyResponse : Type := {
  replies : list string;
  quick_intent : ReplyIntent
}.

(** The field constraints that the schema declares.  The service receives
    requests that the framework has validated against them. *)
Definition valid_Message (m : Message) : Prop :=
  (1 <= String.length (content m) <= 4000)%nat.

Definition valid_ConversationContext (c : ConversationContext) : Prop :=
  (1 <= List.length (messages c) <= 20)%nat /\ Forall valid_Message (messages c).

Definition valid_ReplyRequest (r : ReplyRequest) : Prop :=
  valid_ConversationContext (context r)
  /\ (1 <= num_suggestions r <= 5)%Z
  /\ (10 <= max_length r <= 500)%Z.

(** [confidence: float = Field(..., ge=0.0, le=1.0)] *)
Definition confidence_in_range (c : float) : bool :=
  PrimFloat.leb 0%float c && PrimFloat.leb c 1%float.

(** [ReplySuggestion(text=..., confidence=..., intent=..., tone=...,
    is_quick_reply=...)]: the constructor validates the confidence and
    raises when it is out of range. *)
Definition new_ReplySuggestion (text : string) (confidence : float)
    (intent : ReplyIntent) (tone : ReplyTone) (is_quick_reply : bool)
  : result ReplySuggestion :=
  if confidence_in_range confidence
  then Ok {| text := text; confidence := confidence; intent := intent;
             suggestion_tone := tone; is_quick_reply := is_quick_reply |}
  else Raise ValidationError.

(** [ReplyResponse(suggestions=..., context_summary=...,
    processing_time_ms=...)] *)
Definition new_ReplyResponse (suggestions : list ReplySuggestion)
    (context_summary : string) (processing_time_ms : float) : ReplyResponse :=
  {| suggestions := suggestions;
     context_summary := Some context_summary;
     processing_time_ms := processing_time_ms;
     model_version := "1.0.0" |}.

(* ------------------------------------------------------------------ *)
(** ** Settings ([app/core/config.py]) *)

Module settings.
Definition MAX_CONTEXT_MESSAGES : Z := 5.
End settings.

(* ------------------------------------------------------------------ *)
(** ** The language-model backend *)

(** What [self.tokenizer.decode(output, ...)] does for one returned
    sequence. *)
Inductive decode_outcome : Type :=
| Decoded (full_text : string)
| DecodeRaises.

(** What [self.tokenizer.encode(...)] followed by [self.model.generate(...)]
    does: it raises, or returns sequences that are then decoded one by one. *)
Inductive generate_outcome : Type :=
| GenerateRaises
| Outputs (outputs : list decode_outcome).

(** A loaded model with its tokenizer, as the service sees it: the outcome
    of a generation call for a context, a number of sequences and a maximal
    length.  Sampling is random; one value of this type is one run. *)
Record Model : Type := {
  generate : string -> Z -> Z -> generate_outcome
}.

(* ------------------------------------------------------------------ *)
(** ** The service ([app/services/reply_service.py]) *)

(** The fields of [SmartReplyService] that change after construction. *)
Record SmartReplyService : Type := {
  model : option Model;
  initialized : bool
}.

(** The state after [__init__]. *)
Definition new_SmartReplyService : SmartReplyService :=
  {| model := None; initialized := false |}.

(** [self.quick_reply_templates], in insertion order. *)
Definition quick_reply_templates : list (ReplyIntent * list string) :=
  [ (ACKNOWLEDGE,
     ["Got it, thanks!"; "Understood"; "Sounds good"; "Noted, thank you"]);
    (AGREE,
     ["I agree"; "That makes sense"; "Absolutely"; "Good point"]);
    (DISAGREE,
     ["I have a different view"; "Let me share another perspective";
      "I'm not sure about that"]);
    (THANKS,
     ["Thank you!"; "Thanks for your help"; "Much appreciated"; "Thanks!"]);
    (GREETING,
     ["Hi there!"; "Hello!"; "Hey!"; "Good to hear from you"]);
    (FAREWELL,
     ["Talk soon!"; "Have a great day!"; "Take care"; "Bye for now"]);
    (QUESTION,
     ["Could you clarify?"; "What do you think?"; "Any thoughts on this?"]) ].

(** [self.intent_patterns], in insertion order. *)
Definition greeting_pattern : Re.regex :=
  Re.words "hi" ["hello"; "hey"; "good morning"; "good afternoon"].

Definition farewell_pattern : Re.regex :=
  Re.words "bye" ["goodbye"; "see you"; "talk later"; "take care"].

Definition thanks_pattern : Re.regex :=
  Re.words "thank" ["thanks"; "appreciate"; "grateful"].

Definition question_pattern : Re.regex :=
  Re.Or (Re.Seq (Re.Lit "?") Re.Eos)
        (Re.words "what"
           ["how"; "why"; "when"; "where"; "who"; "could you"; "can you"]).

Definition intent_patterns : list (ReplyIntent * Re.regex) :=
  [ (GREETING, greeting_pattern);
    (FAREWELL, farewell_pattern);
    (THANKS, thanks_pattern);
    (QUESTION, question_pattern) ].

(** The loop of [_detect_intent] over the items of the pattern dict. *)
Fixpoint first_match (patterns : list (ReplyIntent * Re.regex))
    (text_lower : string) : ReplyIntent :=
  match patterns with
  | [] => GENERAL
  | (intent, pattern) :: rest =>
      if Re.search true pattern text_lower then intent
      else first_match rest text_lower
  end.

Definition _detect_intent (text : string) : ReplyIntent :=
  let text_lower := Py.lower text in
  first_match intent_patterns text_lower.

Definition _build_context_string (messages : list Message) : string :=
  let context_parts :=
    map (fun msg =>
           let sender :=
             match sender_name msg with
             | Some (String c s) => String c s
             | Some EmptyString | None => sender_id msg
             end in
           (sender ++ ": " ++ content msg)%string)
        (Py.slice_from messages (- settings.MAX_CONTEXT_MESSAGES)) in
  Py.join (String Py.newline EmptyString) context_parts.

(** *** Cleaning a generated reply *)

(** After an opening [<|]: the number of characters up to and including the
    first closing [|>], when no newline comes before it. *)
Fixpoint find_close (s : string) : option nat :=
  if Py.startswith "|>" s then Some 2
  else
    match s with
    | EmptyString => None
    | String c s' =>
        if Ascii.eqb c Py.newline then None
        else option_map S (find_close s')
    end.

(** [re.sub(r"<\|.*?\|>", "", text)]; [skip] counts the characters of the
    match just removed that are still to be passed over. *)
Fixpoint remove_special_tokens (s : string) (skip : nat) : string :=
  match s with
  | EmptyString => EmptyString
  | String c s' =>
      match skip with
      | S k => remove_special_tokens s' k
      | O =>
          if Py.startswith "<|" s then
            match find_close (Py.drop 2 s) with
            | Some n => remove_special_tokens s' (1 + n)
            | None => String c (remove_special_tokens s' 0)
            end
          else String c (remove_special_tokens s' 0)
      end
  end.

Definition _clean_reply (text : string) : string :=
  let text := remove_special_tokens text 0 in
  let text := Py.join " " (Py.split text) in
  let text :=
    match text with
    | String c rest => String (Py.upper_char c) rest
    | EmptyString => text
    end in
  match Py.last_char text with
  | Some c => if negb (Py.char_in c ".!?") then (text ++ ".")%string else text
  | None => text
  end.

(** *** Tone *)

(** The loop [for old, new in replacements.items(): text = text.replace(old,
    new)]. *)
Fixpoint apply_replacements (replacements : list (string * string))
    (text : string) : string :=
  match replacements with
  | [] => text
  | (old, new) :: rest => apply_replacements rest (Py.replace text old new)
  end.

Definition formal_replacements : list (string * string) :=
  [ ("Thanks!", "Thank you.");
    ("Got it", "Understood");
    ("Sounds good", "That works well");
    ("Hi there!", "Hello,");
    ("Hey!", "Hello,") ].

Definition casual_replacements : list (string * string) :=
  [ ("Thank you.", "Thanks!");
    ("Understood", "Got it!");
    ("Hello,", "Hey!") ].

Definition _adjust_for_tone (text : string) (tone : ReplyTone) : string :=
  match tone with
  | FORMAL => apply_replacements formal_replacements text
  | CASUAL => apply_replacements casual_replacements text
  | PROFESSIONAL | FRIENDLY => text
  end.

(** *** The three tiers *)

(** [base - (i * 0.1)] *)
Definition step_down (base : float) (i : nat) : float :=
  (base - (Py.float_of_nat i * 0.1))%float.

(** The loop of [_generate_ml_replies] over [enumerate(outputs)], inside the
    [try]: an exception ends the loop and leaves the suggestions appended
    so far. *)
Fixpoint ml_loop (context : string) (tone : ReplyTone) (i : nat)
    (outputs : list decode_outcome) (suggestions : list ReplySuggestion)
  : list ReplySuggestion :=
  match outputs with
  | [] => suggestions
  | DecodeRaises :: _ => suggestions
  | Decoded full_text :: rest =>
      let reply_text := Py.strip (Py.drop (String.length context) full_text) in
      if (3 <? String.length reply_text)%nat then
        let reply_text := _clean_reply reply_text in
        match new_ReplySuggestion reply_text (step_down 0.7 i)
                (_detect_intent reply_text) tone false with
        | Ok s => ml_loop context tone (S i) rest (suggestions ++ [s])
        | Raise _ => suggestions
        end
      else ml_loop context tone (S i) rest suggestions
  end.

Definition _generate_ml_replies (m : Model) (context : string)
    (num_suggestions max_length : Z) (tone : ReplyTone)
  : list ReplySuggestion :=
  match generate m context num_suggestions max_length with
  | GenerateRaises => []
  | Outputs outputs => ml_loop context tone 0 outputs []
  end.

(** The loop shared in shape by the two template tiers: one suggestion per
    template, with confidence [base - i * 0.1]. *)
Fixpoint template_loop (base : float) (intent : ReplyIntent) (tone : ReplyTone)
    (i : nat) (templates : list string) (suggestions : list ReplySuggestion)
  : result (list ReplySuggestion) :=
  match templates with
  | [] => Ok suggestions
  | template :: rest =>
      let adjusted := _adjust_for_tone template tone in
      s <- new_ReplySuggestion adjusted (step_down base i) intent tone true ;;
      template_loop base intent tone (S i) rest (suggestions ++ [s])
  end.

Definition _get_quick_replies (intent : ReplyIntent) (tone : ReplyTone)
  : result (list ReplySuggestion) :=
  let templates := Py.dict_get ReplyIntent_eqb quick_reply_templates intent [] in
  template_loop 0.8 intent tone 0 (Py.slice_to templates 2) [].

Definition _generate_fallback_replies (last_message : string)
    (intent : ReplyIntent) (tone : ReplyTone) (num_suggestions : Z)
  : result (list ReplySuggestion) :=
  default <- Py.dict_item ReplyIntent_eqb quick_reply_templates ACKNOWLEDGE ;;
  let templates :=
    Py.dict_get ReplyIntent_eqb quick_reply_templates intent default in
  template_loop 0.6 intent tone 0 (Py.slice_to templates num_suggestions) [].

(** [len(set(m.sender_id for m in messages))] *)
Definition unique_senders (messages : list Message) : nat :=
  List.length (nodup string_dec (map sender_id messages)).

Definition _summarize_context (messages : list Message) : string :=
  match messages with
  | [] => "No context available"
  | _ :: _ =>
      let num_messages := List.length messages in
      ("Conversation with " ++ Py.str_of_nat (unique_senders messages)
       ++ " participant(s), " ++ Py.str_of_nat num_messages
       ++ " recent message(s)")%string
  end.

(** *** Ranking *)

(** [sorted(suggestions, key=lambda x: x.confidence, reverse=True)]: the
    sort is stable, suggestions of equal confidence keep their order. *)
Fixpoint insert_desc (x : ReplySuggestion) (l : list ReplySuggestion)
  : list ReplySuggestion :=
  match l with
  | [] => [x]
  | y :: l' =>
      if PrimFloat.ltb (confidence x) (confidence y)
      then y :: insert_desc x l'
      else x :: l
  end.

Definition sorted_by_confidence (l : list ReplySuggestion)
  : list ReplySuggestion :=
  fold_right insert_desc [] l.

(** *** The entry points *)

(** [t_start] and [t_end] are the two readings of [time.time()]. *)
Definition generate_replies (self : SmartReplyService) (t_start t_end : float)
    (request : ReplyRequest) : result ReplyResponse :=
  let context_str := _build_context_string (messages (context request)) in
  last_message <- Py.last_item (messages (context request)) ;;
  let detected_intent := _detect_intent (content last_message) in
  let suggestions := [] in
  let suggestions :=
    match initialized self, model self with
    | true, Some m =>
        suggestions ++ _generate_ml_replies m context_str
                         (num_suggestions request) (max_length request)
                         (tone request)
    | _, _ => suggestions
    end in
  suggestions <-
    (if include_quick_replies request then
       quick_replies <- _get_quick_replies detected_intent (tone request) ;;
       Ok (suggestions ++ quick_replies)
     else Ok suggestions) ;;
  suggestions <-
    (match suggestions with
     | [] => _generate_fallback_replies (content last_message) detected_intent
               (tone request) (num_suggestions request)
     | _ :: _ => Ok suggestions
     end) ;;
  let suggestions := sorted_by_confidence suggestions in
  let suggestions := Py.slice_to suggestions (num_suggestions request) in
  let processing_time := ((t_end - t_start) * 1000)%float in
  Ok (new_ReplyResponse suggestions
        (_summarize_context (messages (context request))) processing_time).

Definition get_quick_replies (request : QuickReplyRequest)
  : result QuickReplyResponse :=
  let intent := _detect_intent (last_message request) in
  default <- Py.dict_item ReplyIntent_eqb quick_reply_templates ACKNOWLEDGE ;;
  let templates :=
    Py.dict_get ReplyIntent_eqb quick_reply_templates intent default in
  Ok {| replies := Py.slice_to templates 4; quick_intent := intent |}.

(* ------------------------------------------------------------------ *)
(** ** Specification vocabulary *)

(** The Generation Backend is available when the models were loaded. *)
Definition backend_available (self : SmartReplyService) : bool :=
  initialized self && match model self with Some _ => true | None => false end.

(** What a template loop appends when no constructor raises. *)
Fixpoint template_suggestions (base : float) (intent : ReplyIntent)
    (tone : ReplyTone) (i : nat) (templates : list string)
  : list ReplySuggestion :=
  match templates with
  | [] => []
  | template :: rest =>
      {| text := _adjust_for_tone template tone;
         confidence := step_down base i;
         intent := intent;
         suggestion_tone := tone;
         is_quick_reply := true |}
      :: template_suggestions base intent tone (S i) rest
  end.

(** Confidence-descending order of a list of suggestions. *)
Fixpoint descending (l : list ReplySuggestion) : bool :=
  match l with
  | [] => true
  | x :: l' =>
      forallb (fun y => PrimFloat.leb (confidence y) (confidence x)) l'
      && descending l'
  end.

(** The template set of an intent, when it has one. *)
Definition template_set (intent : ReplyIntent) : result (list string) :=
  Py.dict_item ReplyIntent_eqb quick_reply_templates intent.

(** The set a template tier with the acknowledge fallback reads. *)
Definition templates_or_acknowledge (intent : ReplyIntent) : list string :=
  match template_set intent with
  | Ok l => l
  | Raise _ =>
      match template_set ACKNOWLEDGE with
      | Ok l => l
      | Raise _ => []
      end
  end.

(** No trigger phrase of the formal table occurs in the text. *)
Definition no_casual_trigger (text : string) : bool :=
  forallb (fun r => negb (Py.contains (fst r) text)) formal_replacements.

(** A suggestion that some tier hands to the orchestrator. *)
Inductive produced (s : ReplySuggestion) : Prop :=
| produced_ml (m : Model) (context : string) (n max_len : Z) (tone : ReplyTone) :
    In s (_generate_ml_replies m context n max_len tone) -> produced s
| produced_quick (intent : ReplyIntent) (tone : ReplyTone)
    (l : list ReplySuggestion) :
    _get_quick_replies intent tone = Ok l -> In s l -> produced s
| produced_fallback (last : string) (intent : ReplyIntent) (tone : ReplyTone)
    (n : Z) (l : list ReplySuggestion) :
    _generate_fallback_replies last intent tone n = Ok l -> In s l ->
    produced s.

(** A rule whose pattern is not found in the lower-cased text. *)
Definition no_match (text_lower : string) (rule : ReplyIntent * Re.regex)
  : Prop :=
  Re.search true (snd rule) text_lower = false.

(** The suggestions that [generate_replies] has collected when it reaches
    the sort, for a request whose last message is [last]. *)
Definition collected (self : SmartReplyService) (request : ReplyRequest)
    (last : Message) : list ReplySuggestion :=
  let detected_intent := _detect_intent (content last) in
  let ml :=
    match initialized self, model self with
    | true, Some m =>
        _generate_ml_replies m
          (_build_context_string (messages (context request)))
          (num_suggestions request) (max_length request) (tone request)
    | _, _ => []
    end in
  let quick :=
    if include_quick_replies request then
      template_suggestions 0.8 detected_intent (tone request) 0
        (Py.slice_to
           (match template_set detected_intent with
            | Ok l => l
            | Raise _ => []
            end) 2)
    else [] in
  match ml ++ quick with
  | [] =>
      template_suggestions 0.6 detected_intent (tone request) 0
        (Py.slice_to (templates_or_acknowledge detected_intent)
           (num_suggestions request))
  | s :: l => s :: l
  end.

(* ------------------------------------------------------------------ *)
(** ** Worked inputs *)

Definition message_from (sender body : string) : Message :=
  {| msg_id := None; content := body; sender_id := sender;
     sender_name := None; timestamp := None; is_current_user := false |}.

Definition request_for (msgs : list Message) (t : ReplyTone) (n : Z)
    (quick : bool) : ReplyRequest :=
  {| context := {| messages := msgs; channel_name := None;
                   channel_type := None; workspace_id := None |};
     current_user_id := "u1"; current_user_name := None;
     tone := t; num_suggestions := n; max_length := 100;
     include_quick_replies := quick |}.

(** A request whose message list is empty; the schema rejects it. *)
Definition empty_request : ReplyRequest := request_for [] PROFESSIONAL 3 true.

(** A one-message conversation that no intent rule matches. *)
Definition ok_request (t : ReplyTone) (n : Z) (quick : bool) : ReplyRequest :=
  request_for [message_from "u2" "ok"] t n quick.

(** A backend run that returns one sequence: the context followed by a
    generated continuation. *)
Definition echo_model : Model :=
  {| generate := fun context _ _ =>
       Outputs [Decoded (context ++ " sure, will do")%string] |}.

Definition ready_service : SmartReplyService :=
  {| model := Some echo_model; initialized := true |}.

(* ------------------------------------------------------------------ *)
(** ** Start-up and the HTTP route *)

(** What the body of the [try] in [initialize] does: it raises before
    [self.model] is assigned (the import, or the loading of the tokenizer
    or of the model fails), it raises after the assignment (while the pad
    token is set), or it runs to its end. *)
Inductive load_outcome : Type :=
| LoadRaises
| PadTokenRaises (m : Model)
| Loaded (m : Model).

(** [initialize]: the [except] branch clears [self.initialized] and keeps
    whatever was assigned before the exception. *)
Definition initialize (self : SmartReplyService) (o : load_outcome)
  : SmartReplyService :=
  match o with
  | LoadRaises => {| model := model self; initialized := false |}
  | PadTokenRaises m => {| model := Some m; initialized := false |}
  | Loaded m => {| model := Some m; initialized := true |}
  end.

(** What a route handler ends with: a value, an [HTTPException], or an
    exception of the service that nothing catches. *)
Inductive http_outcome (A : Type) : Type :=
| Returned (a : A)
| HTTPException (status_code : Z) (detail : string)
| Unhandled (e : exn).

Arguments Returned {A} a.
Arguments HTTPException {A} status_code detail.
Arguments Unhandled {A} e.

(** [suggest_replies] of [app/api/replies.py], on the global service. *)
Definition suggest_replies (reply_service : SmartReplyService)
    (t_start t_end : float) (request : ReplyRequest)
  : http_outcome ReplyResponse :=
  match messages (context request) with
  | [] =>
      HTTPException 400 "At least one message is required in the context"
  | _ :: _ =>
      match generate_replies reply_service t_start t_end request with
      | Ok resp => Returned resp
      | Raise e => Unhandled e
      end
  end.

(** [quick_replies] of [app/api/replies.py]. *)
Definition quick_replies (request : QuickReplyRequest)
  : http_outcome QuickReplyResponse :=
  match get_quick_replies request with
  | Ok resp => Returned resp
  | Raise e => Unhandled e
  end.

(* ------------------------------------------------------------------ *)
(** ** Further vocabulary *)


(** No character of the text is white space. *)
Fixpoint no_space (s : string) : bool :=
  match s with
  | EmptyString => true
  | String c s' => negb (Py.is_space c) && no_space s'
  end.

(** A non-empty run of characters that are not white space. *)
Definition is_token (w : string) : bool :=
  match w with
  | EmptyString => false
  | String _ _ => no_space w
  end.

(** The text is its words joined by single spaces: no white space at
    either end, none but the space, no two spaces in a row. *)
Definition whitespace_normal (s : string) : Prop :=
  Py.join " " (Py.split s) = s.

(** The last character is one of [.], [!] and [?]. *)
Definition ends_sentence (s : string) : bool :=
  match Py.last_char s with
  | Some c => Py.char_in c ".!?"
  | None => false
  end.

Definition starts_lowercase (s : string) : bool :=
  match s with
  | String c _ => Py.is_lower c
  | EmptyString => false
  end.

(** The confidence is a number: it compares with itself. *)
Definition is_number (c : float) : bool := PrimFloat.leb c c.

(** The confidences of a list of model suggestions are those of candidates
    [i <= j1 < j2 < ... < 7], in this order. *)
Inductive from_index : nat -> list ReplySuggestion -> Prop :=
| from_index_nil (i : nat) : from_index i []
| from_index_cons (i j : nat) (s : ReplySuggestion) (l : list ReplySuggestion) :
    (i <= j < 7)%nat ->
    confidence s = step_down 0.7 j ->
    from_index (S j) l ->
    from_index i (s :: l).

(* ------------------------------------------------------------------ *)
(** ** Lemmas on the sequence operations *)

Lemma slice_to_length_le {A : Type} (l : list A) (n : Z) :
  (List.length (Py.slice_to l n) <= List.length l)%nat.
Proof.
  unfold Py.slice_to. destruct (0 <=? n)%Z; rewrite length_firstn; lia.
Qed.

Lemma slice_to_length_bound {A : Type} (l : list A) (n : Z) :
  (0 <= n)%Z -> (Z.of_nat (List.length (Py.slice_to l n)) <= n)%Z.
Proof.
  intros Hn. unfold Py.slice_to.
  destruct (0 <=? n)%Z eqn:E; [| lia].
  rewrite length_firstn. lia.
Qed.

Lemma slice_to_all {A : Type} (l : list A) (n : Z) :
  (Z.of_nat (List.length l) <= n)%Z -> Py.slice_to l n = l.
Proof.
  intros Hn. unfold Py.slice_to.
  destruct (0 <=? n)%Z eqn:E; [| lia].
  apply firstn_all2. lia.
Qed.

Lemma firstn_Forall {A : Type} (P : A -> Prop) (k : nat) (l : list A) :
  Forall P l -> Forall P (firstn k l).
Proof.
  revert l. induction k as [| k IH]; intros l H; simpl.
  - constructor.
  - destruct H as [| x l Hx Hl]; constructor; auto.
Qed.

Lemma slice_to_Forall {A : Type} (P : A -> Prop) (l : list A) (n : Z) :
  Forall P l -> Forall P (Py.slice_to l n).
Proof.
  intros H. unfold Py.slice_to. destruct (0 <=? n)%Z; now apply firstn_Forall.
Qed.

Lemma length_firstn_le_4 {A : Type} (l : list A) :
  (List.length (Py.slice_to l 4) <= 4)%nat.
Proof.
  assert (H := slice_to_length_bound l 4). lia.
Qed.

Lemma last_item_nonempty {A : Type} (l : list A) :
  l <> [] -> exists x, Py.last_item l = Ok x.
Proof.
  intros Hl. unfold Py.last_item.
  destruct (rev l) as [| x r] eqn:E.
  - apply (f_equal (@rev A)) in E. rewrite rev_involutive in E. now subst.
  - now exists x.
Qed.

Lemma last_item_empty {A : Type} : Py.last_item (@nil A) = Raise IndexError.
Proof. reflexivity. Qed.

(* ------------------------------------------------------------------ *)
(** ** Lemmas on the template tiers *)

Lemma step_down_quick_range (i : nat) :
  (i < 4)%nat -> confidence_in_range (step_down 0.8 i) = true.
Proof.
  intros Hi.
  destruct i as [| [| [| [| i]]]]; try reflexivity. lia.
Qed.

Lemma step_down_fallback_range (i : nat) :
  (i < 4)%nat -> confidence_in_range (step_down 0.6 i) = true.
Proof.
  intros Hi.
  destruct i as [| [| [| [| i]]]]; try reflexivity. lia.
Qed.

(** The first seven candidates of the model tier pass the validation, the
    eighth does not. *)
Lemma step_down_ml_range (i : nat) :
  (i < 7)%nat -> confidence_in_range (step_down 0.7 i) = true.
Proof.
  intros Hi.
  destruct i as [| [| [| [| [| [| [| i]]]]]]]; try reflexivity. lia.
Qed.

Lemma step_down_ml_eighth : confidence_in_range (step_down 0.7 7) = false.
Proof. reflexivity. Qed.

Lemma template_loop_ok (base : float) (intent : ReplyIntent) (tone : ReplyTone) :
  (forall i, (i < 4)%nat -> confidence_in_range (step_down base i) = true) ->
  forall templates i suggestions,
    (i + List.length templates <= 4)%nat ->
    template_loop base intent tone i templates suggestions
    = Ok (suggestions ++ template_suggestions base intent tone i templates).
Proof.
  intros Hbase templates.
  induction templates as [| t rest IH]; intros i acc Hlen; simpl.
  - now rewrite app_nil_r.
  - simpl in Hlen. unfold new_ReplySuggestion.
    rewrite Hbase by lia. simpl.
    rewrite IH by lia. now rewrite <- app_assoc.
Qed.

Lemma template_loop_validated (base : float) (intent : ReplyIntent)
    (tone : ReplyTone) :
  forall templates i suggestions l,
    Forall (fun s => confidence_in_range (confidence s) = true) suggestions ->
    template_loop base intent tone i templates suggestions = Ok l ->
    Forall (fun s => confidence_in_range (confidence s) = true) l.
Proof.
  induction templates as [| t rest IH]; intros i acc l Hacc H; simpl in H.
  - now inversion H; subst.
  - unfold new_ReplySuggestion in H.
    destruct (confidence_in_range (step_down base i)) eqn:E; simpl in H;
      [| discriminate].
    eapply IH; [| exact H].
    apply Forall_app; split; [assumption |].
    constructor; [exact E | constructor].
Qed.

Lemma template_set_length (intent : ReplyIntent) (l : list string) :
  template_set intent = Ok l -> (1 <= List.length l <= 4)%nat.
Proof.
  destruct intent; cbn; intros H; inversion H; subst; simpl; lia.
Qed.

Lemma template_set_missing (intent : ReplyIntent) :
  template_set intent = Raise KeyError
  <-> In intent [ANSWER; SUGGESTION; GENERAL].
Proof.
  split.
  - destruct intent; cbn; intros H; try discriminate; tauto.
  - simpl. intros [H | [H | [H | []]]]; subst; reflexivity.
Qed.

Lemma dict_get_template_set (intent : ReplyIntent) (default : list string) :
  Py.dict_get ReplyIntent_eqb quick_reply_templates intent default
  = match template_set intent with Ok l => l | Raise _ => default end.
Proof. destruct intent; reflexivity. Qed.

Lemma templates_or_acknowledge_length (intent : ReplyIntent) :
  (1 <= List.length (templates_or_acknowledge intent) <= 4)%nat.
Proof. destruct intent; cbn; lia. Qed.

Lemma get_quick_replies_eq (intent : ReplyIntent) (tone : ReplyTone) :
  _get_quick_replies intent tone
  = Ok (template_suggestions 0.8 intent tone 0
          (Py.slice_to
             (match template_set intent with Ok l => l | Raise _ => [] end) 2)).
Proof.
  unfold _get_quick_replies. rewrite dict_get_template_set.
  rewrite template_loop_ok.
  - reflexivity.
  - apply step_down_quick_range.
  - assert (H := slice_to_length_le
                   (match template_set intent with Ok l => l | Raise _ => [] end) 2).
    destruct (template_set intent) as [l |] eqn:E.
    + apply template_set_length in E. simpl. lia.
    + simpl in *. lia.
Qed.

Lemma generate_fallback_replies_eq (last : string) (intent : ReplyIntent)
    (tone : ReplyTone) (n : Z) :
  _generate_fallback_replies last intent tone n
  = Ok (template_suggestions 0.6 intent tone 0
          (Py.slice_to (templates_or_acknowledge intent) n)).
Proof.
  unfold _generate_fallback_replies.
  change (Py.dict_item ReplyIntent_eqb quick_reply_templates ACKNOWLEDGE)
    with (template_set ACKNOWLEDGE).
  assert (Hack : exists a, template_set ACKNOWLEDGE = Ok a) by (eexists; reflexivity).
  destruct Hack as [a Ha]. rewrite Ha. cbn [bind].
  rewrite dict_get_template_set.
  assert (Hsrc : match template_set intent with Ok l => l | Raise _ => a end
                 = templates_or_acknowledge intent).
  { unfold templates_or_acknowledge. rewrite Ha. reflexivity. }
  rewrite Hsrc.
  rewrite template_loop_ok.
  - reflexivity.
  - apply step_down_fallback_range.
  - assert (H := slice_to_length_le (templates_or_acknowledge intent) n).
    assert (H' := templates_or_acknowledge_length intent). simpl. lia.
Qed.

(* ------------------------------------------------------------------ *)
(** ** Lemmas on the model tier *)

Lemma ml_loop_validated (context : string) (tone : ReplyTone) :
  forall outputs i suggestions,
    Forall (fun s => confidence_in_range (confidence s) = true) suggestions ->
    Forall (fun s => confidence_in_range (confidence s) = true)
           (ml_loop context tone i outputs suggestions).
Proof.
  induction outputs as [| o rest IH]; intros i acc Hacc; simpl.
  - assumption.
  - destruct o as [full_text |]; [| assumption].
    destruct (3 <? _)%nat; [| now apply IH].
    unfold new_ReplySuggestion.
    destruct (confidence_in_range (step_down 0.7 i)) eqn:E; [| assumption].
    apply IH. apply Forall_app; split; [assumption |].
    constructor; [exact E | constructor].
Qed.

Lemma ml_loop_not_quick (context : string) (tone : ReplyTone) :
  forall outputs i suggestions,
    Forall (fun s => is_quick_reply s = false) suggestions ->
    Forall (fun s => is_quick_reply s = false)
           (ml_loop context tone i outputs suggestions).
Proof.
  induction outputs as [| o rest IH]; intros i acc Hacc; simpl.
  - assumption.
  - destruct o as [full_text |]; [| assumption].
    destruct (3 <? _)%nat; [| now apply IH].
    unfold new_ReplySuggestion.
    destruct (confidence_in_range (step_down 0.7 i)); [| assumption].
    apply IH. apply Forall_app; split; [assumption |].
    constructor; [reflexivity | constructor].
Qed.

Lemma generate_ml_replies_validated (m : Model) (context : string)
    (n max_len : Z) (tone : ReplyTone) :
  Forall (fun s => confidence_in_range (confidence s) = true)
         (_generate_ml_replies m context n max_len tone).
Proof.
  unfold _generate_ml_replies.
  destruct (generate m context n max_len); [constructor |].
  apply ml_loop_validated. constructor.
Qed.

Lemma generate_ml_replies_not_quick (m : Model) (context : string)
    (n max_len : Z) (tone : ReplyTone) :
  Forall (fun s => is_quick_reply s = false)
         (_generate_ml_replies m context n max_len tone).
Proof.
  unfold _generate_ml_replies.
  destruct (generate m context n max_len); [constructor |].
  apply ml_loop_not_quick. constructor.
Qed.

(* ------------------------------------------------------------------ *)
(** ** Lemmas on the ranking *)

Lemma insert_desc_Forall (P : ReplySuggestion -> Prop) (x : ReplySuggestion) :
  forall l, P x -> Forall P l -> Forall P (insert_desc x l).
Proof.
  induction l as [| y l IH]; intros Hx Hl; simpl.
  - now constructor.
  - destruct (PrimFloat.ltb (confidence x) (confidence y)).
    + inversion Hl; subst. constructor; auto.
    + now constructor.
Qed.

Lemma sorted_by_confidence_Forall (P : ReplySuggestion -> Prop) :
  forall l, Forall P l -> Forall P (sorted_by_confidence l).
Proof.
  induction l as [| x l IH]; intros H; simpl.
  - constructor.
  - inversion H; subst. apply insert_desc_Forall; auto.
Qed.

Lemma insert_desc_length (x : ReplySuggestion) :
  forall l, List.length (insert_desc x l) = S (List.length l).
Proof.
  induction l as [| y l IH]; simpl; [reflexivity |].
  destruct (PrimFloat.ltb (confidence x) (confidence y)); simpl; congruence.
Qed.

Lemma sorted_by_confidence_length :
  forall l, List.length (sorted_by_confidence l) = List.length l.
Proof.
  induction l as [| x l IH]; simpl; [reflexivity |].
  rewrite insert_desc_length. congruence.
Qed.

(* ------------------------------------------------------------------ *)
(** ** The orchestrator in closed form *)

Lemma generate_replies_eq (self : SmartReplyService) (t_start t_end : float)
    (request : ReplyRequest) (last : Message) :
  Py.last_item (messages (context request)) = Ok last ->
  generate_replies self t_start t_end request
  = Ok (new_ReplyResponse
          (Py.slice_to (sorted_by_confidence (collected self request last))
             (num_suggestions request))
          (_summarize_context (messages (context request)))
          ((t_end - t_start) * 1000)%float).
Proof.
  intros Hlast. unfold generate_replies, collected.
  rewrite Hlast. cbn [bind].
  destruct (initialized self), (model self) as [m |]; cbn [app];
    destruct (include_quick_replies request);
    rewrite ?get_quick_replies_eq; cbn [bind]; rewrite ?app_nil_r;
    try match goal with
        | |- context [match ?l with [] => _ | _ :: _ => _ end] =>
            destruct l eqn:?
        end;
    rewrite ?generate_fallback_replies_eq; reflexivity.
Qed.

Lemma generate_replies_empty (self : SmartReplyService) (t_start t_end : float)
    (request : ReplyRequest) :
  messages (context request) = [] ->
  generate_replies self t_start t_end request = Raise IndexError.
Proof.
  intros H. unfold generate_replies. rewrite H. reflexivity.
Qed.

Lemma valid_request_last (request : ReplyRequest) :
  valid_ReplyRequest request ->
  exists last, Py.last_item (messages (context request)) = Ok last.
Proof.
  intros [[[Hlen _] _] _]. apply last_item_nonempty.
  intros E. rewrite E in Hlen. simpl in Hlen. lia.
Qed.

Lemma ok_request_valid (t : ReplyTone) (n : Z) (quick : bool) :
  (1 <= n <= 5)%Z -> valid_ReplyRequest (ok_request t n quick).
Proof.
  intros Hn. unfold valid_ReplyRequest, valid_ConversationContext. simpl.
  repeat split; try lia.
  constructor; [| constructor]. unfold valid_Message. simpl. lia.
Defined.

(* ------------------------------------------------------------------ *)
(** ** Properties of the orchestrator *)

(** C1 (amended).  On an empty message list [_summarize_context] returns
    the fixed sentence "No context available" without raising, but
    [generate_replies] does not reach the summary: reading the last message
    raises [IndexError], whatever the state of the backend. *)
Theorem empty_context_summary_and_raise (self : SmartReplyService)
    (t_start t_end : float) (request : ReplyRequest) :
  messages (context request) = [] ->
  _summarize_context (messages (context request)) = "No context available"
  /\ generate_replies self t_start t_end request = Raise IndexError.
Proof.
  intros H. split.
  - rewrite H. reflexivity.
  - now apply generate_replies_empty.
Qed.

Lemma empty_context_summary_and_raise_witness :
  _summarize_context (messages (context empty_request)) = "No context available"
  /\ generate_replies new_SmartReplyService 0 1 empty_request = Raise IndexError.
Proof.
  apply (empty_context_summary_and_raise new_SmartReplyService 0 1 empty_request).
  reflexivity.
Defined.

(** C1 as stated fails: for the empty request there is no response at all,
    hence none carrying the "no context" summary. *)
Lemma empty_context_no_response :
  ~ (exists resp,
        generate_replies new_SmartReplyService 0 1 empty_request = Ok resp
        /\ context_summary resp = Some "No context available").
Proof.
  intros [resp [H _]]. vm_compute in H. discriminate.
Qed.

(** C6.  For every request that satisfies the schema, [generate_replies]
    returns a response, and the response holds at most [num_suggestions]
    suggestions, whichever tiers contributed. *)
Theorem suggestions_at_most_requested (self : SmartReplyService)
    (t_start t_end : float) (request : ReplyRequest) :
  valid_ReplyRequest request ->
  exists resp,
    generate_replies self t_start t_end request = Ok resp
    /\ (Z.of_nat (List.length (suggestions resp)) <= num_suggestions request)%Z.
Proof.
  intros Hv. destruct (valid_request_last request Hv) as [last Hlast].
  eexists. split.
  - apply (generate_replies_eq _ _ _ _ last Hlast).
  - cbn [suggestions new_ReplyResponse].
    apply slice_to_length_bound.
    destruct Hv as [_ [Hn _]]. lia.
Qed.

Lemma suggestions_at_most_requested_witness :
  exists resp,
    generate_replies ready_service 0 1 (ok_request CASUAL 1 true) = Ok resp
    /\ (Z.of_nat (List.length (suggestions resp)) <= 1)%Z.
Proof.
  apply (suggestions_at_most_requested ready_service 0 1 (ok_request CASUAL 1 true)).
  apply ok_request_valid. lia.
Defined.

(** C7.  [get_quick_replies] succeeds on every message; it returns the
    detected intent together with the first four (at most) templates, in
    order, of that intent's set, or of the acknowledge set when the intent
    has no set of its own. *)
Theorem get_quick_replies_capped (request : QuickReplyRequest) :
  exists resp src,
    get_quick_replies request = Ok resp
    /\ quick_intent resp = _detect_intent (last_message request)
    /\ (template_set (quick_intent resp) = Ok src
        \/ (template_set (quick_intent resp) = Raise KeyError
            /\ template_set ACKNOWLEDGE = Ok src))
    /\ replies resp = firstn 4 src
    /\ (List.length (replies resp) <= 4)%nat.
Proof.
  unfold get_quick_replies.
  change (Py.dict_item ReplyIntent_eqb quick_reply_templates ACKNOWLEDGE)
    with (template_set ACKNOWLEDGE).
  generalize (_detect_intent (last_message request)) as i. intros i.
  destruct (template_set ACKNOWLEDGE) as [a |] eqn:Ha; [| discriminate].
  cbn [bind]. rewrite dict_get_template_set.
  destruct (template_set i) as [l | e] eqn:Hi.
  - exists {| replies := Py.slice_to l 4; quick_intent := i |}, l.
    cbn [replies quick_intent]. repeat split.
    + left. exact Hi.
    + apply length_firstn_le_4.
  - exists {| replies := Py.slice_to a 4; quick_intent := i |}, a.
    cbn [replies quick_intent]. repeat split.
    + right. split; [| reflexivity].
      destruct i; cbn in Hi; try discriminate; now inversion Hi.
    + apply length_firstn_le_4.
Qed.

(** C8.  Adapting a text to the professional tone leaves it unchanged. *)
Theorem adjust_professional_identity (text : string) :
  _adjust_for_tone text PROFESSIONAL = text.
Proof. reflexivity. Qed.

(** C5.  Every suggestion produced by a tier (model generation, quick
    replies, fallback) carries a confidence between 0 and 1: the template
    tiers never step below 0.5 resp. 0.3 minus rounding, and a model
    candidate whose stepped-down confidence leaves the interval is refused
    by the constructor, which ends the loop. *)
Theorem produced_confidence_unit_interval (s : ReplySuggestion) :
  produced s ->
  PrimFloat.leb 0 (confidence s) = true
  /\ PrimFloat.leb (confidence s) 1 = true.
Proof.
  intros H.
  assert (Hr : confidence_in_range (confidence s) = true).
  { destruct H as [m c n k t Hin | i t l Hl Hin | last i t n l Hl Hin].
    - assert (F := generate_ml_replies_validated m c n k t).
      rewrite Forall_forall in F. now apply F.
    - unfold _get_quick_replies in Hl.
      assert (F := template_loop_validated _ _ _ _ _ _ _ (Forall_nil _) Hl).
      rewrite Forall_forall in F. now apply F.
    - unfold _generate_fallback_replies in Hl.
      destruct (Py.dict_item ReplyIntent_eqb quick_reply_templates ACKNOWLEDGE)
        as [a |]; cbn [bind] in Hl; [| discriminate].
      assert (F := template_loop_validated _ _ _ _ _ _ _ (Forall_nil _) Hl).
      rewrite Forall_forall in F. now apply F. }
  unfold confidence_in_range in Hr. now apply andb_true_iff in Hr.
Qed.

Lemma produced_confidence_unit_interval_witness :
  let s := {| text := "Hello,"; confidence := 0.8; intent := GREETING;
              suggestion_tone := FORMAL; is_quick_reply := true |} in
  PrimFloat.leb 0 (confidence s) = true
  /\ PrimFloat.leb (confidence s) 1 = true.
Proof.
  intros s. apply (produced_confidence_unit_interval s).
  apply (produced_quick s GREETING FORMAL
           [s; {| text := "Hello!"; confidence := step_down 0.8 1;
                  intent := GREETING; suggestion_tone := FORMAL;
                  is_quick_reply := true |}]).
  - reflexivity.
  - left. reflexivity.
Defined.

(** C10.  When quick replies are requested and the detected intent has no
    template set (answer, suggestion or general), [_get_quick_replies]
    contributes nothing, whereas the fallback tier and [get_quick_replies]
    read the acknowledge set for the same intent; so with a backend that
    produced at least one candidate the response holds no quick reply. *)
Theorem quick_replies_empty_without_template_set (self : SmartReplyService)
    (m : Model) (t_start t_end : float) (request : ReplyRequest)
    (last : Message) :
  initialized self = true ->
  model self = Some m ->
  Py.last_item (messages (context request)) = Ok last ->
  In (_detect_intent (content last)) [ANSWER; SUGGESTION; GENERAL] ->
  include_quick_replies request = true ->
  let detected := _detect_intent (content last) in
  _get_quick_replies detected (tone request) = Ok []
  /\ (exists fb,
        _generate_fallback_replies (content last) detected (tone request) 1
        = Ok fb /\ fb <> [])
  /\ (exists q,
        get_quick_replies {| last_message := content last;
                             quick_sender_name := None |} = Ok q
        /\ Ok (replies q) = template_set ACKNOWLEDGE)
  /\ (_generate_ml_replies m
        (_build_context_string (messages (context request)))
        (num_suggestions request) (max_length request) (tone request) <> [] ->
      exists resp,
        generate_replies self t_start t_end request = Ok resp
        /\ Forall (fun s => is_quick_reply s = false) (suggestions resp)).
Proof.
  intros Hinit Hmodel Hlast Hmiss Hquick detected.
  assert (Hset : template_set detected = Raise KeyError)
    by now apply template_set_missing.
  repeat split.
  - rewrite get_quick_replies_eq, Hset. reflexivity.
  - eexists. split; [apply generate_fallback_replies_eq |].
    unfold templates_or_acknowledge. rewrite Hset. cbn. discriminate.
  - unfold get_quick_replies. cbn [last_message].
    fold detected.
    change (Py.dict_item ReplyIntent_eqb quick_reply_templates ACKNOWLEDGE)
      with (template_set ACKNOWLEDGE).
    destruct (template_set ACKNOWLEDGE) as [a |] eqn:Ha; [| discriminate].
    cbn [bind]. rewrite dict_get_template_set, Hset.
    eexists. split; [reflexivity |]. cbn [replies].
    cbn in Ha. inversion Ha; subst. reflexivity.
  - intros Hml. eexists. split; [apply (generate_replies_eq _ _ _ _ last Hlast) |].
    cbn [suggestions new_ReplyResponse].
    apply slice_to_Forall, sorted_by_confidence_Forall.
    unfold collected. rewrite Hinit, Hmodel, Hquick.
    fold detected. rewrite Hset. cbn [Py.slice_to template_suggestions].
    replace (Py.slice_to [] 2) with (@nil string) by reflexivity.
    cbn [template_suggestions]. rewrite app_nil_r.
    assert (F := generate_ml_replies_not_quick m
                   (_build_context_string (messages (context request)))
                   (num_suggestions request) (max_length request) (tone request)).
    destruct (_generate_ml_replies m _ _ _ _) as [| s l]; [congruence |].
    exact F.
Qed.

Lemma quick_replies_empty_without_template_set_witness :
  _get_quick_replies GENERAL CASUAL = Ok []
  /\ (exists resp,
        generate_replies ready_service 0 1 (ok_request CASUAL 3 true) = Ok resp
        /\ suggestions resp <> []
        /\ Forall (fun s => is_quick_reply s = false) (suggestions resp)).
Proof.
  destruct (quick_replies_empty_without_template_set ready_service echo_model
              0 1 (ok_request CASUAL 3 true) (message_from "u2" "ok")
              eq_refl eq_refl eq_refl (or_intror (or_intror (or_introl eq_refl)))
              eq_refl)
    as [Hq [_ [_ Hresp]]].
  split; [exact Hq |].
  destruct Hresp as [resp [Hresp Hall]].
  - vm_compute. discriminate.
  - exists resp. split; [exact Hresp |]. split; [| exact Hall].
    vm_compute in Hresp. inversion Hresp. discriminate.
Defined.

(* ------------------------------------------------------------------ *)
(** ** Properties of the intent classifier *)

Lemma first_match_spec (patterns : list (ReplyIntent * Re.regex))
    (text_lower : string) :
  (exists before i p after,
      patterns = before ++ (i, p) :: after
      /\ Forall (no_match text_lower) before
      /\ Re.search true p text_lower = true
      /\ first_match patterns text_lower = i)
  \/ (Forall (no_match text_lower) patterns
      /\ first_match patterns text_lower = GENERAL).
Proof.
  induction patterns as [| [i p] rest IH]; simpl.
  - right. split; [constructor | reflexivity].
  - destruct (Re.search true p text_lower) eqn:E.
    + left. exists [], i, p, rest. repeat split; auto.
    + destruct IH as [[before [j [q [after [Hsplit [Hno [Hq Hres]]]]]]] | [Hno Hres]].
      * left. exists ((i, p) :: before), j, q, after.
        split; [simpl; now rewrite Hsplit |].
        split; [constructor; [exact E | exact Hno] |].
        split; assumption.
      * right. split; [| exact Hres].
        constructor; [exact E | exact Hno].
Qed.

(** The classifier only ever answers with one of the four rule intents or
    with the default. *)
Lemma detect_intent_range (text : string) :
  In (_detect_intent text) [GREETING; FAREWELL; THANKS; QUESTION; GENERAL].
Proof.
  unfold _detect_intent, intent_patterns, first_match.
  repeat match goal with
         | |- context [if ?b then _ else _] => destruct b
         end; simpl; tauto.
Qed.

(** C2.  The rules are tried in the order greeting, farewell, thanks,
    question against the lower-cased text; the classifier returns the
    intent of the first rule whose pattern is found in it and [general]
    when none is, as on the empty string.  "Hi, thanks!" is a greeting
    although the thanks rule matches it too. *)
Theorem detect_intent_first_matching_rule (text : string) :
  map fst intent_patterns = [GREETING; FAREWELL; THANKS; QUESTION]
  /\ ((exists before i p after,
          intent_patterns = before ++ (i, p) :: after
          /\ Forall (no_match (Py.lower text)) before
          /\ Re.search true p (Py.lower text) = true
          /\ _detect_intent text = i)
      \/ (Forall (no_match (Py.lower text)) intent_patterns
          /\ _detect_intent text = GENERAL))
  /\ _detect_intent "" = GENERAL
  /\ Re.search true thanks_pattern (Py.lower "Hi, thanks!") = true
  /\ _detect_intent "Hi, thanks!" = GREETING.
Proof.
  split; [reflexivity |].
  split; [apply first_match_spec |].
  repeat split; vm_compute; reflexivity.
Qed.

(* ------------------------------------------------------------------ *)
(** ** Properties of the tone adapter *)

Lemma contains_cons_false (old : string) (c : ascii) (s : string) :
  Py.contains old (String c s) = false ->
  Py.startswith old (String c s) = false /\ Py.contains old s = false.
Proof.
  simpl. intros H. apply orb_false_iff in H. exact H.
Qed.

(** Replacing a phrase that does not occur changes nothing. *)
Lemma replace_absent (old new : string) :
  old <> EmptyString ->
  forall s, Py.contains old s = false -> Py.replace s old new = s.
Proof.
  intros Hold. unfold Py.replace.
  induction s as [| c s IH]; intros H.
  - destruct old; [congruence | reflexivity].
  - apply contains_cons_false in H. destruct H as [Hstart Hrest].
    cbn [Py.replace_from].
    destruct old as [| a old']; [congruence |].
    rewrite Hstart. f_equal. now apply IH.
Qed.

Lemma apply_replacements_absent (text : string) :
  forall replacements,
    Forall (fun r => fst r <> EmptyString) replacements ->
    forallb (fun r => negb (Py.contains (fst r) text)) replacements = true ->
    apply_replacements replacements text = text.
Proof.
  induction replacements as [| [old new] rest IH]; intros Hne H; simpl.
  - reflexivity.
  - simpl in H. apply andb_true_iff in H. destruct H as [Hold Hrest].
    inversion Hne; subst.
    rewrite replace_absent; auto.
    now apply negb_true_iff in Hold.
Qed.

Lemma formal_replacements_nonempty :
  Forall (fun r : string * string => fst r <> EmptyString) formal_replacements.
Proof. repeat constructor; discriminate. Qed.

(** C9.  On a text that contains none of the casual trigger phrases of the
    formal table, adapting to the formal tone twice gives what adapting
    once gives. *)
Theorem adjust_formal_idempotent (x : string) :
  no_casual_trigger x = true ->
  _adjust_for_tone (_adjust_for_tone x FORMAL) FORMAL = _adjust_for_tone x FORMAL.
Proof.
  intros H. cbn [_adjust_for_tone].
  rewrite (apply_replacements_absent x formal_replacements
             formal_replacements_nonempty H).
  apply (apply_replacements_absent x formal_replacements
           formal_replacements_nonempty H).
Qed.

Lemma adjust_formal_idempotent_witness :
  _adjust_for_tone (_adjust_for_tone "Noted, thank you" FORMAL) FORMAL
  = _adjust_for_tone "Noted, thank you" FORMAL.
Proof.
  apply (adjust_formal_idempotent "Noted, thank you"). reflexivity.
Defined.

(** On the canned replies themselves a second formal pass changes nothing
    either, triggers or not. *)
Lemma adjust_formal_idempotent_on_templates :
  forallb
    (fun t =>
       String.eqb (_adjust_for_tone (_adjust_for_tone t FORMAL) FORMAL)
                  (_adjust_for_tone t FORMAL))
    (flat_map snd quick_reply_templates) = true.
Proof. vm_compute. reflexivity. Qed.

(* ------------------------------------------------------------------ *)
(** ** Properties of the fallback tier *)

(** The fallback list is already in descending order and no longer than
    the requested count, so ranking and truncation leave it as it is. *)
Lemma fallback_ranked (detected : ReplyIntent) (t : ReplyTone) (n : Z) :
  (1 <= n <= 5)%Z ->
  let fb := template_suggestions 0.6 detected t 0
              (Py.slice_to (templates_or_acknowledge detected) n) in
  Py.slice_to (sorted_by_confidence fb) n = fb
  /\ fb <> []
  /\ descending fb = true.
Proof.
  intros Hn.
  assert (Hcases : (n = 1 \/ n = 2 \/ n = 3 \/ n = 4 \/ n = 5)%Z) by lia.
  destruct Hcases as [-> | [-> | [-> | [-> | ->]]]];
    destruct detected, t; vm_compute;
    (split; [reflexivity | split; [discriminate | reflexivity]]).
Qed.

Lemma template_suggestions_text (base : float) (intent : ReplyIntent)
    (tone : ReplyTone) :
  forall templates i,
    map text (template_suggestions base intent tone i templates)
    = map (fun template => _adjust_for_tone template tone) templates.
Proof.
  induction templates as [| x l IH]; intros i; simpl.
  - reflexivity.
  - now rewrite IH.
Qed.

Lemma collected_without_backend (self : SmartReplyService)
    (request : ReplyRequest) (last : Message) :
  backend_available self = false ->
  include_quick_replies request = false ->
  collected self request last
  = template_suggestions 0.6 (_detect_intent (content last)) (tone request) 0
      (Py.slice_to (templates_or_acknowledge (_detect_intent (content last)))
         (num_suggestions request)).
Proof.
  unfold backend_available, collected. intros Hb Hq. rewrite Hq.
  destruct (initialized self), (model self); simpl in Hb;
    try discriminate; reflexivity.
Qed.

Lemma collected_general_without_backend (self : SmartReplyService)
    (request : ReplyRequest) (last : Message) :
  backend_available self = false ->
  In (_detect_intent (content last)) [ANSWER; SUGGESTION; GENERAL] ->
  collected self request last
  = template_suggestions 0.6 (_detect_intent (content last)) (tone request) 0
      (Py.slice_to (templates_or_acknowledge (_detect_intent (content last)))
         (num_suggestions request)).
Proof.
  unfold backend_available, collected. intros Hb Hmiss.
  apply template_set_missing in Hmiss. rewrite Hmiss.
  replace (Py.slice_to [] 2) with (@nil string) by reflexivity.
  destruct (initialized self), (model self), (include_quick_replies request);
    simpl in Hb; try discriminate; reflexivity.
Qed.

(** C3.  With the backend unavailable and quick replies not requested,
    every request that satisfies the schema gets a non-empty list of
    suggestions in descending order of confidence: the fallback suggestions
    built, in order, from the first [num_suggestions] templates of the
    detected intent's set, or of the acknowledge set when it has none. *)
Theorem fallback_when_backend_unavailable (self : SmartReplyService)
    (t_start t_end : float) (request : ReplyRequest) :
  valid_ReplyRequest request ->
  backend_available self = false ->
  include_quick_replies request = false ->
  exists resp last src,
    Py.last_item (messages (context request)) = Ok last
    /\ generate_replies self t_start t_end request = Ok resp
    /\ suggestions resp <> []
    /\ descending (suggestions resp) = true
    /\ (template_set (_detect_intent (content last)) = Ok src
        \/ (template_set (_detect_intent (content last)) = Raise KeyError
            /\ template_set ACKNOWLEDGE = Ok src))
    /\ suggestions resp
       = template_suggestions 0.6 (_detect_intent (content last))
           (tone request) 0 (Py.slice_to src (num_suggestions request))
    /\ map text (suggestions resp)
       = map (fun template => _adjust_for_tone template (tone request))
           (Py.slice_to src (num_suggestions request)).
Proof.
  intros Hv Hb Hq.
  destruct (valid_request_last request Hv) as [last Hlast].
  assert (Hn : (1 <= num_suggestions request <= 5)%Z) by (destruct Hv; tauto).
  destruct (fallback_ranked (_detect_intent (content last)) (tone request)
              (num_suggestions request) Hn) as [Hsort [Hne Hdesc]].
  eexists. exists last, (templates_or_acknowledge (_detect_intent (content last))).
  split; [exact Hlast |].
  split; [apply (generate_replies_eq _ _ _ _ last Hlast) |].
  cbn [suggestions new_ReplyResponse].
  rewrite collected_without_backend by assumption.
  rewrite Hsort.
  split; [exact Hne |]. split; [exact Hdesc |].
  split.
  - unfold templates_or_acknowledge.
    destruct (template_set (_detect_intent (content last))) as [l | e] eqn:E.
    + now left.
    + right. split.
      * destruct (_detect_intent (content last)); cbn in E;
          try discriminate; now inversion E.
      * reflexivity.
  - split; [reflexivity |]. apply template_suggestions_text.
Qed.

Lemma fallback_when_backend_unavailable_witness :
  exists resp last src,
    Py.last_item (messages (context (ok_request FRIENDLY 3 false))) = Ok last
    /\ generate_replies new_SmartReplyService 0 1 (ok_request FRIENDLY 3 false)
       = Ok resp
    /\ suggestions resp <> []
    /\ descending (suggestions resp) = true
    /\ (template_set (_detect_intent (content last)) = Ok src
        \/ (template_set (_detect_intent (content last)) = Raise KeyError
            /\ template_set ACKNOWLEDGE = Ok src))
    /\ suggestions resp
       = template_suggestions 0.6 (_detect_intent (content last))
           FRIENDLY 0 (Py.slice_to src 3)
    /\ map text (suggestions resp)
       = map (fun template => _adjust_for_tone template FRIENDLY)
           (Py.slice_to src 3).
Proof.
  apply (fallback_when_backend_unavailable new_SmartReplyService 0 1
           (ok_request FRIENDLY 3 false)).
  - apply ok_request_valid. lia.
  - reflexivity.
  - reflexivity.
Defined.

(** C4 (amended).  With the backend unavailable, the formal tone,
    [num_suggestions = 2] and a last message whose detected intent has no
    template set (the classifier never answers [acknowledge]; the
    acknowledge templates are read for [general]), the response holds
    exactly two suggestions, both quick replies tagged with the detected
    intent, with confidences 0.6 then 0.5 and the texts
    "Understood, thanks!" and "Understood": the table rewrites "Got it" in
    the first template. *)
Theorem formal_acknowledge_fallback (self : SmartReplyService)
    (t_start t_end : float) (request : ReplyRequest) (last : Message) :
  backend_available self = false ->
  tone request = FORMAL ->
  num_suggestions request = 2%Z ->
  Py.last_item (messages (context request)) = Ok last ->
  In (_detect_intent (content last)) [ANSWER; SUGGESTION; GENERAL] ->
  exists resp,
    generate_replies self t_start t_end request = Ok resp
    /\ suggestions resp
       = [ {| text := "Understood, thanks!"; confidence := 0.6;
              intent := _detect_intent (content last);
              suggestion_tone := FORMAL; is_quick_reply := true |};
           {| text := "Understood"; confidence := 0.5;
              intent := _detect_intent (content last);
              suggestion_tone := FORMAL; is_quick_reply := true |} ].
Proof.
  intros Hb Ht Hn Hlast Hmiss.
  eexists. split; [apply (generate_replies_eq _ _ _ _ last Hlast) |].
  cbn [suggestions new_ReplyResponse].
  rewrite collected_general_without_backend by assumption.
  rewrite Ht, Hn.
  assert (Hsrc : templates_or_acknowledge (_detect_intent (content last))
                 = ["Got it, thanks!"; "Understood"; "Sounds good";
                    "Noted, thank you"]).
  { unfold templates_or_acknowledge.
    apply template_set_missing in Hmiss. rewrite Hmiss. reflexivity. }
  rewrite Hsrc.
  generalize (_detect_intent (content last)) as d. intros d.
  vm_compute. reflexivity.
Qed.

Lemma formal_acknowledge_fallback_witness :
  exists resp,
    generate_replies new_SmartReplyService 0 1 (ok_request FORMAL 2 true)
    = Ok resp
    /\ suggestions resp
       = [ {| text := "Understood, thanks!"; confidence := 0.6;
              intent := _detect_intent "ok";
              suggestion_tone := FORMAL; is_quick_reply := true |};
           {| text := "Understood"; confidence := 0.5;
              intent := _detect_intent "ok";
              suggestion_tone := FORMAL; is_quick_reply := true |} ].
Proof.
  apply (formal_acknowledge_fallback new_SmartReplyService 0 1
           (ok_request FORMAL 2 true) (message_from "u2" "ok")).
  - reflexivity.
  - reflexivity.
  - reflexivity.
  - reflexivity.
  - right. right. left. reflexivity.
Defined.

(** C4 as stated fails: the substitution table does rewrite
    "Got it, thanks!", both when the fallback tier is given the
    acknowledge intent and in the response to a formal request that reaches
    the acknowledge templates. *)
Lemma formal_got_it_is_rewritten :
  _adjust_for_tone "Got it, thanks!" FORMAL = "Understood, thanks!"
  /\ _adjust_for_tone "Got it, thanks!" FORMAL <> "Got it, thanks!"
  /\ (exists fb,
        _generate_fallback_replies "ok" ACKNOWLEDGE FORMAL 2 = Ok fb
        /\ map text fb = ["Understood, thanks!"; "Understood"])
  /\ (exists resp,
        generate_replies new_SmartReplyService 0 1 (ok_request FORMAL 2 false)
        = Ok resp
        /\ map text (suggestions resp) = ["Understood, thanks!"; "Understood"]
        /\ map intent (suggestions resp) = [GENERAL; GENERAL]).
Proof.
  split; [reflexivity |].
  split; [vm_compute; discriminate |].
  split; eexists; (split; [vm_compute; reflexivity |]).
  - reflexivity.
  - split; reflexivity.
Qed.

(* ------------------------------------------------------------------ *)
(** ** Evaluations *)

(** The greeting rule precedes the question rule. *)
Example detect_greeting_before_question :
  _detect_intent "hey, how's it going?" = GREETING.
Proof. vm_compute. reflexivity. Qed.

Example quick_replies_for_greeting :
  get_quick_replies {| last_message := "hey, how's it going?";
                       quick_sender_name := None |}
  = Ok {| replies := ["Hi there!"; "Hello!"; "Hey!"; "Good to hear from you"];
          quick_intent := GREETING |}.
Proof. vm_compute. reflexivity. Qed.

(** A keyword inside a longer word is not found, a trailing question mark
    is, also before a final newline. *)
Example detect_word_boundaries :
  map _detect_intent ["this"; "thankful"; "oh hi"; "really?";
                      String.append "really?" (String Py.newline "")]
  = [GENERAL; GENERAL; GREETING; QUESTION; QUESTION].
Proof. vm_compute. reflexivity. Qed.

Example clean_reply_strips_markup :
  _clean_reply "hello <|endoftext|>   world" = "Hello world.".
Proof. vm_compute. reflexivity. Qed.

(** In binary64 the second quick reply, [0.8 - 1 * 0.1], ranks above the
    first model candidate, [0.7 - 0 * 0.1]. *)
Example second_quick_reply_above_first_candidate :
  PrimFloat.ltb (step_down 0.7 0) (step_down 0.8 1) = true.
Proof. reflexivity. Qed.

(* ------------------------------------------------------------------ *)
(** ** The order of binary64 confidences *)

Lemma SFleb_trans (a b c : spec_float) :
  SFleb a b = true -> SFleb b c = true -> SFleb a c = true.
Proof.
  unfold SFleb, SFcompare.
  destruct a as [sa | sa | | sa ma ea], b as [sb | sb | | sb mb eb],
           c as [sc | sc | | sc mc ec];
    try discriminate; try reflexivity;
    repeat match goal with s : bool |- _ => destruct s end;
    try discriminate; try reflexivity;
    change (Pos.compare_cont Eq ma mb) with (Pos.compare ma mb);
    change (Pos.compare_cont Eq mb mc) with (Pos.compare mb mc);
    change (Pos.compare_cont Eq ma mc) with (Pos.compare ma mc);
    destruct (Z.compare_spec ea eb), (Z.compare_spec eb ec),
             (Z.compare_spec ea ec);
    try discriminate; try reflexivity; try lia;
    destruct (Pos.compare_spec ma mb), (Pos.compare_spec mb mc),
             (Pos.compare_spec ma mc);
    simpl; try discriminate; try reflexivity; try lia.
Qed.

Lemma SFltb_false_leb (a b : spec_float) :
  SFleb a a = true -> SFleb b b = true ->
  SFltb a b = false -> SFleb b a = true.
Proof.
  unfold SFleb, SFltb, SFcompare.
  destruct a as [sa | sa | | sa ma ea], b as [sb | sb | | sb mb eb];
    try discriminate; try reflexivity;
    repeat match goal with s : bool |- _ => destruct s end;
    try discriminate; try reflexivity;
    intros _ _;
    change (Pos.compare_cont Eq ma mb) with (Pos.compare ma mb);
    change (Pos.compare_cont Eq mb ma) with (Pos.compare mb ma);
    destruct (Z.compare_spec ea eb), (Z.compare_spec eb ea);
    try discriminate; try reflexivity; try lia;
    destruct (Pos.compare_spec ma mb), (Pos.compare_spec mb ma);
    simpl; try discriminate; try reflexivity; try lia.
Qed.

Lemma SFleb_numbers (a b : spec_float) :
  SFleb a b = true -> SFleb a a = true /\ SFleb b b = true.
Proof.
  unfold SFleb, SFcompare.
  destruct a as [sa | sa | | sa ma ea], b as [sb | sb | | sb mb eb];
    try discriminate; intros _; split; try reflexivity;
    repeat match goal with s : bool |- _ => destruct s end; try reflexivity;
    rewrite ?Z.compare_refl;
    try change (Pos.compare_cont Eq ma ma) with (Pos.compare ma ma);
    try change (Pos.compare_cont Eq mb mb) with (Pos.compare mb mb);
    rewrite ?Pos.compare_refl; reflexivity.
Qed.

Lemma leb_trans (a b c : float) :
  PrimFloat.leb a b = true -> PrimFloat.leb b c = true ->
  PrimFloat.leb a c = true.
Proof. rewrite !FloatAxioms.leb_spec. apply SFleb_trans. Qed.

Lemma ltb_false_leb (a b : float) :
  is_number a = true -> is_number b = true ->
  PrimFloat.ltb a b = false -> PrimFloat.leb b a = true.
Proof.
  unfold is_number. rewrite FloatAxioms.ltb_spec, !FloatAxioms.leb_spec. apply SFltb_false_leb.
Qed.

Lemma ltb_leb (a b : float) :
  PrimFloat.ltb a b = true -> PrimFloat.leb a b = true.
Proof.
  rewrite FloatAxioms.ltb_spec, FloatAxioms.leb_spec. unfold SFltb, SFleb.
  destruct (SFcompare _ _) as [[] |]; try discriminate; reflexivity.
Qed.

Lemma in_range_is_number (c : float) :
  confidence_in_range c = true -> is_number c = true.
Proof.
  unfold confidence_in_range, is_number. intros H.
  apply andb_true_iff in H. destruct H as [H _].
  rewrite FloatAxioms.leb_spec in *. now apply SFleb_numbers in H.
Qed.

(* ------------------------------------------------------------------ *)
(** ** The ranking sorts *)

Lemma forallb_insert_desc (P : ReplySuggestion -> bool) (x : ReplySuggestion) :
  forall l, forallb P (insert_desc x l) = P x && forallb P l.
Proof.
  induction l as [| y l IH]; simpl.
  - reflexivity.
  - destruct (PrimFloat.ltb (confidence x) (confidence y)); simpl.
    + rewrite IH. destruct (P x), (P y); reflexivity.
    + reflexivity.
Qed.

Lemma forallb_leb_weaken (x y : ReplySuggestion) (l : list ReplySuggestion) :
  PrimFloat.leb (confidence y) (confidence x) = true ->
  forallb (fun z => PrimFloat.leb (confidence z) (confidence y)) l = true ->
  forallb (fun z => PrimFloat.leb (confidence z) (confidence x)) l = true.
Proof.
  intros Hyx H. rewrite forallb_forall in *. intros z Hz.
  eapply leb_trans; [apply H, Hz | exact Hyx].
Qed.

Lemma insert_desc_descending (x : ReplySuggestion) :
  is_number (confidence x) = true ->
  forall l,
    forallb (fun s => is_number (confidence s)) l = true ->
    descending l = true ->
    descending (insert_desc x l) = true.
Proof.
  intros Hx. induction l as [| y l IH]; intros Hnum Hl; simpl.
  - reflexivity.
  - simpl in Hnum, Hl.
    apply andb_true_iff in Hnum. destruct Hnum as [Hy Hnum].
    apply andb_true_iff in Hl. destruct Hl as [Hyl Hl].
    destruct (PrimFloat.ltb (confidence x) (confidence y)) eqn:E; simpl.
    + rewrite forallb_insert_desc, Hyl, (ltb_leb _ _ E). simpl.
      now apply IH.
    + assert (Hyx := ltb_false_leb _ _ Hx Hy E).
      rewrite Hyx, Hyl, Hl. simpl.
      rewrite (forallb_leb_weaken x y l Hyx Hyl). reflexivity.
Qed.

Lemma sorted_by_confidence_descending (l : list ReplySuggestion) :
  forallb (fun s => is_number (confidence s)) l = true ->
  descending (sorted_by_confidence l) = true.
Proof.
  induction l as [| x l IH]; intros H; simpl.
  - reflexivity.
  - simpl in H. apply andb_true_iff in H. destruct H as [Hx Hl].
    apply insert_desc_descending; auto.
    unfold sorted_by_confidence. clear IH Hx.
    induction l as [| y l IH]; simpl; [reflexivity |].
    simpl in Hl. apply andb_true_iff in Hl. destruct Hl as [Hy Hl].
    rewrite forallb_insert_desc, Hy. simpl. now apply IH.
Qed.

Lemma firstn_forallb {A : Type} (P : A -> bool) (k : nat) (l : list A) :
  forallb P l = true -> forallb P (firstn k l) = true.
Proof.
  revert l. induction k as [| k IH]; intros l H; simpl; [reflexivity |].
  destruct l as [| x l]; simpl in *; [reflexivity |].
  apply andb_true_iff in H. destruct H as [Hx Hl].
  rewrite Hx. simpl. now apply IH.
Qed.

Lemma firstn_descending (k : nat) (l : list ReplySuggestion) :
  descending l = true -> descending (firstn k l) = true.
Proof.
  revert l. induction k as [| k IH]; intros l H; simpl; [reflexivity |].
  destruct l as [| x l]; simpl in *; [reflexivity |].
  apply andb_true_iff in H. destruct H as [Hx Hl].
  rewrite (firstn_forallb _ k l Hx). simpl. now apply IH.
Qed.

Lemma slice_to_descending (l : list ReplySuggestion) (n : Z) :
  descending l = true -> descending (Py.slice_to l n) = true.
Proof.
  intros H. unfold Py.slice_to. destruct (0 <=? n)%Z; now apply firstn_descending.
Qed.

Lemma template_suggestions_validated (base : float) (intent : ReplyIntent)
    (tone : ReplyTone) :
  (forall i, (i < 4)%nat -> confidence_in_range (step_down base i) = true) ->
  forall templates i,
    (i + List.length templates <= 4)%nat ->
    Forall (fun s => confidence_in_range (confidence s) = true)
           (template_suggestions base intent tone i templates).
Proof.
  intros Hbase. induction templates as [| t rest IH]; intros i Hlen; simpl.
  - constructor.
  - simpl in Hlen. constructor.
    + simpl. apply Hbase. lia.
    + apply IH. lia.
Qed.

Lemma collected_validated (self : SmartReplyService) (request : ReplyRequest)
    (last : Message) :
  Forall (fun s => confidence_in_range (confidence s) = true)
         (collected self request last).
Proof.
  unfold collected.
  set (ml := match initialized self, model self with
             | true, Some m => _generate_ml_replies m _ _ _ _
             | _, _ => []
             end).
  assert (Hml : Forall (fun s => confidence_in_range (confidence s) = true) ml).
  { subst ml. destruct (initialized self), (model self); try constructor.
    apply generate_ml_replies_validated. }
  set (q := if include_quick_replies request then _ else []).
  assert (Hq : Forall (fun s => confidence_in_range (confidence s) = true) q).
  { subst q. destruct (include_quick_replies request); [| constructor].
    apply template_suggestions_validated; [apply step_down_quick_range |].
    assert (H := slice_to_length_bound
                   (match template_set (_detect_intent (content last)) with
                    | Ok l => l | Raise _ => [] end) 2).
    simpl. lia. }
  destruct (ml ++ q) as [| s l] eqn:E.
  - apply template_suggestions_validated; [apply step_down_fallback_range |].
    assert (H := slice_to_length_le
                   (templates_or_acknowledge (_detect_intent (content last)))
                   (num_suggestions request)).
    assert (H' := templates_or_acknowledge_length (_detect_intent (content last))).
    simpl. lia.
  - rewrite <- E. apply Forall_app. split; assumption.
Qed.

(** X1.  Whatever the tiers contributed, the suggestions of a response
    are in descending order of confidence. *)
Theorem response_ranked (self : SmartReplyService) (t_start t_end : float)
    (request : ReplyRequest) (resp : ReplyResponse) :
  generate_replies self t_start t_end request = Ok resp ->
  descending (suggestions resp) = true.
Proof.
  intros H.
  destruct (Py.last_item (messages (context request))) as [last | e] eqn:Hlast.
  - rewrite (generate_replies_eq _ _ _ _ last Hlast) in H.
    inversion H; subst. cbn [suggestions new_ReplyResponse].
    apply slice_to_descending, sorted_by_confidence_descending.
    apply forallb_forall. intros s Hs.
    apply in_range_is_number.
    assert (F := collected_validated self request last).
    rewrite Forall_forall in F. now apply F.
  - unfold generate_replies in H. rewrite Hlast in H. discriminate.
Qed.

Lemma response_ranked_witness :
  exists resp,
    generate_replies ready_service 0 1
      (request_for [message_from "u2" "thanks a lot"] CASUAL 3 true) = Ok resp
    /\ List.length (suggestions resp) = 3%nat
    /\ descending (suggestions resp) = true.
Proof.
  eexists. split; [vm_compute; reflexivity |]. split; [reflexivity |].
  apply (response_ranked ready_service 0 1
           (request_for [message_from "u2" "thanks a lot"] CASUAL 3 true)).
  vm_compute. reflexivity.
Defined.

(** X2.  Every suggestion of a response carries a confidence between 0
    and 1, as the response schema requires. *)
Theorem response_confidences_in_range (self : SmartReplyService)
    (t_start t_end : float) (request : ReplyRequest) (resp : ReplyResponse) :
  generate_replies self t_start t_end request = Ok resp ->
  Forall (fun s => PrimFloat.leb 0 (confidence s) = true
                   /\ PrimFloat.leb (confidence s) 1 = true)
         (suggestions resp).
Proof.
  intros H.
  destruct (Py.last_item (messages (context request))) as [last | e] eqn:Hlast.
  - rewrite (generate_replies_eq _ _ _ _ last Hlast) in H.
    inversion H; subst. cbn [suggestions new_ReplyResponse].
    apply slice_to_Forall, sorted_by_confidence_Forall.
    eapply Forall_impl; [| apply (collected_validated self request last)].
    intros s Hs. unfold confidence_in_range in Hs.
    now apply andb_true_iff in Hs.
  - unfold generate_replies in H. rewrite Hlast in H. discriminate.
Qed.

Lemma response_confidences_in_range_witness :
  exists resp,
    generate_replies ready_service 0 1 (ok_request FORMAL 5 true) = Ok resp
    /\ Forall (fun s => PrimFloat.leb 0 (confidence s) = true
                        /\ PrimFloat.leb (confidence s) 1 = true)
              (suggestions resp).
Proof.
  eexists. split; [vm_compute; reflexivity |].
  apply (response_confidences_in_range ready_service 0 1
           (ok_request FORMAL 5 true)).
  vm_compute. reflexivity.
Defined.

(* ------------------------------------------------------------------ *)
(** ** Quick replies against the other tiers *)

Lemma sorted_pair (q1 q2 : ReplySuggestion) :
  PrimFloat.ltb (confidence q1) (confidence q2) = false ->
  sorted_by_confidence [q1; q2] = [q1; q2].
Proof.
  intros H. unfold sorted_by_confidence. simpl. now rewrite H.
Qed.

Lemma rule_intent_templates (detected : ReplyIntent) :
  In detected [GREETING; FAREWELL; THANKS; QUESTION] ->
  exists a b rest, template_set detected = Ok (a :: b :: rest).
Proof.
  simpl. intros [H | [H | [H | [H | []]]]]; subst;
    do 3 eexists; reflexivity.
Qed.

Lemma quick_pair (detected : ReplyIntent) (t : ReplyTone)
    (a b : string) (rest : list string) :
  template_set detected = Ok (a :: b :: rest) ->
  template_suggestions 0.8 detected t 0
    (Py.slice_to
       (match template_set detected with Ok l => l | Raise _ => [] end) 2)
  = [ {| text := _adjust_for_tone a t; confidence := step_down 0.8 0;
         intent := detected; suggestion_tone := t; is_quick_reply := true |};
      {| text := _adjust_for_tone b t; confidence := step_down 0.8 1;
         intent := detected; suggestion_tone := t; is_quick_reply := true |} ].
Proof.
  intros H. rewrite H. reflexivity.
Qed.

(** X3.  Without a backend, when quick replies are requested and the
    detected intent is one of the four rule intents, the response is made
    of the quick replies alone: the first two templates of the intent, tone
    adapted, with confidences 0.8 and 0.8 - 0.1, cut to [num_suggestions].
    The fallback tier is not consulted, so at most two suggestions come
    back however many were requested. *)
Theorem quick_replies_without_backend (self : SmartReplyService)
    (t_start t_end : float) (request : ReplyRequest) (last : Message) :
  backend_available self = false ->
  include_quick_replies request = true ->
  Py.last_item (messages (context request)) = Ok last ->
  In (_detect_intent (content last)) [GREETING; FAREWELL; THANKS; QUESTION] ->
  exists resp a b rest,
    template_set (_detect_intent (content last)) = Ok (a :: b :: rest)
    /\ generate_replies self t_start t_end request = Ok resp
    /\ suggestions resp
       = Py.slice_to
           [ {| text := _adjust_for_tone a (tone request);
                confidence := 0.8;
                intent := _detect_intent (content last);
                suggestion_tone := tone request; is_quick_reply := true |};
             {| text := _adjust_for_tone b (tone request);
                confidence := step_down 0.8 1;
                intent := _detect_intent (content last);
                suggestion_tone := tone request; is_quick_reply := true |} ]
           (num_suggestions request)
    /\ (List.length (suggestions resp) <= 2)%nat.
Proof.
  intros Hb Hq Hlast Hrule.
  destruct (rule_intent_templates _ Hrule) as [a [b [rest Hset]]].
  eexists. exists a, b, rest.
  split; [exact Hset |].
  split; [apply (generate_replies_eq _ _ _ _ last Hlast) |].
  cbn [suggestions new_ReplyResponse].
  assert (Hc : collected self request last
               = [ {| text := _adjust_for_tone a (tone request);
                      confidence := step_down 0.8 0;
                      intent := _detect_intent (content last);
                      suggestion_tone := tone request;
                      is_quick_reply := true |};
                   {| text := _adjust_for_tone b (tone request);
                      confidence := step_down 0.8 1;
                      intent := _detect_intent (content last);
                      suggestion_tone := tone request;
                      is_quick_reply := true |} ]).
  { unfold collected, backend_available in *. rewrite Hq.
    rewrite (quick_pair _ _ a b rest Hset).
    destruct (initialized self), (model self); simpl in Hb;
      try discriminate; reflexivity. }
  rewrite Hc, sorted_pair by reflexivity.
  split; [reflexivity |].
  match goal with
  | |- (List.length (Py.slice_to ?l _) <= 2)%nat =>
      exact (slice_to_length_le l (num_suggestions request))
  end.
Qed.

Lemma quick_replies_without_backend_witness :
  exists resp a b rest,
    template_set (_detect_intent "hello team") = Ok (a :: b :: rest)
    /\ generate_replies new_SmartReplyService 0 1
         (request_for [message_from "u2" "hello team"] FORMAL 5 true) = Ok resp
    /\ suggestions resp
       = Py.slice_to
           [ {| text := _adjust_for_tone a FORMAL; confidence := 0.8;
                intent := _detect_intent "hello team";
                suggestion_tone := FORMAL; is_quick_reply := true |};
             {| text := _adjust_for_tone b FORMAL;
                confidence := step_down 0.8 1;
                intent := _detect_intent "hello team";
                suggestion_tone := FORMAL; is_quick_reply := true |} ] 5
    /\ (List.length (suggestions resp) <= 2)%nat.
Proof.
  apply (quick_replies_without_backend new_SmartReplyService 0 1
           (request_for [message_from "u2" "hello team"] FORMAL 5 true)
           (message_from "u2" "hello team")).
  - reflexivity.
  - reflexivity.
  - reflexivity.
  - vm_compute. tauto.
Defined.

Lemma firstn_Forall_quick_prefix (q1 q2 : ReplySuggestion)
    (l : list ReplySuggestion) (k : nat) :
  is_quick_reply q1 = true -> is_quick_reply q2 = true ->
  (k <= 2)%nat ->
  Forall (fun s => is_quick_reply s = true) (firstn k (q1 :: q2 :: l)).
Proof.
  intros H1 H2 Hk.
  destruct k as [| [| [| k]]]; simpl; repeat constructor; auto. lia.
Qed.

Lemma seven_cases (j : nat) :
  (j < 7)%nat ->
  j = 0%nat \/ j = 1%nat \/ j = 2%nat \/ j = 3%nat \/ j = 4%nat
  \/ j = 5%nat \/ j = 6%nat.
Proof. lia. Qed.

Lemma model_below_quick (j : nat) :
  (j < 7)%nat ->
  PrimFloat.ltb (step_down 0.7 j) (step_down 0.8 0) = true
  /\ PrimFloat.ltb (step_down 0.7 j) (step_down 0.8 1) = true.
Proof.
  intros Hj.
  destruct (seven_cases j Hj) as [-> | [-> | [-> | [-> | [-> | [-> | ->]]]]]];
    split; reflexivity.
Qed.

Lemma model_steps_down (j k : nat) :
  (j < k < 7)%nat ->
  PrimFloat.ltb (step_down 0.7 j) (step_down 0.7 k) = false.
Proof.
  intros [Hjk Hk].
  assert (Hj : (j < 7)%nat) by lia.
  destruct (seven_cases j Hj) as [-> | [-> | [-> | [-> | [-> | [-> | ->]]]]]];
    destruct (seven_cases k Hk) as [-> | [-> | [-> | [-> | [-> | [-> | ->]]]]]];
    try lia; reflexivity.
Qed.

Lemma from_index_weaken (i : nat) (l : list ReplySuggestion) :
  from_index (S i) l -> from_index i l.
Proof.
  intros H. inversion H; subst.
  - constructor.
  - econstructor; eauto. lia.
Qed.

Lemma ml_loop_from_index (context : string) (tone : ReplyTone) :
  forall outputs i suggestions,
    (i + List.length outputs <= 7)%nat ->
    exists l,
      ml_loop context tone i outputs suggestions = suggestions ++ l
      /\ from_index i l.
Proof.
  induction outputs as [| o rest IH]; intros i acc Hlen; simpl.
  - exists []. split; [now rewrite app_nil_r | constructor].
  - simpl in Hlen.
    destruct o as [full_text |];
      [| exists []; split; [now rewrite app_nil_r | constructor]].
    destruct (3 <? _)%nat.
    + unfold new_ReplySuggestion.
      rewrite step_down_ml_range by lia.
      match goal with
      | |- context [ml_loop _ _ _ _ (acc ++ [?s])] => set (s0 := s)
      end.
      destruct (IH (S i) (acc ++ [s0])) as [l [Hl Hfrom]]; [lia |].
      exists (s0 :: l). split.
      * rewrite Hl, <- app_assoc. reflexivity.
      * apply (from_index_cons i i s0 l); [lia | reflexivity | exact Hfrom].
    + destruct (IH (S i) acc) as [l [Hl Hfrom]]; [lia |].
      exists l. split; [exact Hl | now apply from_index_weaken].
Qed.

Lemma insert_desc_from_index (s : ReplySuggestion) (j : nat)
    (l : list ReplySuggestion) :
  (j < 7)%nat ->
  confidence s = step_down 0.7 j ->
  from_index (S j) l ->
  insert_desc s l = s :: l.
Proof.
  intros Hj Hs Hl. inversion Hl as [| i k s' l' Hk Hs' Hl']; subst; simpl.
  - reflexivity.
  - assert (H := model_steps_down j k).
    rewrite <- Hs, <- Hs' in H. rewrite H by lia. reflexivity.
Qed.

Lemma model_after_quick (q1 q2 : ReplySuggestion) :
  confidence q1 = step_down 0.8 0 ->
  confidence q2 = step_down 0.8 1 ->
  forall l i,
    from_index i l ->
    fold_right insert_desc [q1; q2] l = q1 :: q2 :: l.
Proof.
  intros H1 H2 l i H. induction H as [i | i j s l Hj Hs Hl IH]; simpl.
  - reflexivity.
  - cbn [fold_right]. rewrite IH.
    destruct (model_below_quick j) as [Hq1 Hq2]; [lia |].
    rewrite <- Hs, <- H1 in Hq1. rewrite <- Hs, <- H2 in Hq2.
    cbn [insert_desc]. rewrite Hq1, Hq2.
    rewrite (insert_desc_from_index s j l); auto. lia.
Qed.

(** X4.  When quick replies are requested for one of the four rule
    intents and the backend returned at most seven sequences, both quick
    replies rank above every model suggestion: the response is the two
    quick replies followed by the model suggestions in emission order,
    cut to [num_suggestions].  With [num_suggestions] 1 or 2 no model
    suggestion is returned. *)
Theorem quick_replies_outrank_model (self : SmartReplyService) (m : Model)
    (t_start t_end : float) (request : ReplyRequest) (last : Message)
    (outputs : list decode_outcome) :
  initialized self = true ->
  model self = Some m ->
  include_quick_replies request = true ->
  Py.last_item (messages (context request)) = Ok last ->
  In (_detect_intent (content last)) [GREETING; FAREWELL; THANKS; QUESTION] ->
  generate m (_build_context_string (messages (context request)))
    (num_suggestions request) (max_length request) = Outputs outputs ->
  (List.length outputs <= 7)%nat ->
  exists resp q1 q2,
    _get_quick_replies (_detect_intent (content last)) (tone request)
    = Ok [q1; q2]
    /\ generate_replies self t_start t_end request = Ok resp
    /\ suggestions resp
       = Py.slice_to
           (q1 :: q2 ::
            _generate_ml_replies m
              (_build_context_string (messages (context request)))
              (num_suggestions request) (max_length request) (tone request))
           (num_suggestions request)
    /\ ((0 <= num_suggestions request <= 2)%Z ->
        Forall (fun s => is_quick_reply s = true) (suggestions resp)).
Proof.
  intros Hinit Hmodel Hq Hlast Hrule Hgen Hlen.
  destruct (rule_intent_templates _ Hrule) as [a [b [rest Hset]]].
  assert (Hquick := quick_pair _ (tone request) a b rest Hset).
  set (q1 := {| text := _adjust_for_tone a (tone request);
                confidence := step_down 0.8 0;
                intent := _detect_intent (content last);
                suggestion_tone := tone request; is_quick_reply := true |})
    in *.
  set (q2 := {| text := _adjust_for_tone b (tone request);
                confidence := step_down 0.8 1;
                intent := _detect_intent (content last);
                suggestion_tone := tone request; is_quick_reply := true |})
    in *.
  set (ml := _generate_ml_replies m
               (_build_context_string (messages (context request)))
               (num_suggestions request) (max_length request) (tone request)).
  assert (Hfrom : from_index 0 ml).
  { subst ml. unfold _generate_ml_replies. rewrite Hgen.
    destruct (ml_loop_from_index
                (_build_context_string (messages (context request)))
                (tone request) outputs 0 []) as [l [Hl Hf]]; [simpl; lia |].
    rewrite Hl. exact Hf. }
  assert (Hc : collected self request last = ml ++ [q1; q2]).
  { unfold collected. rewrite Hinit, Hmodel, Hq, Hquick. fold ml.
    destruct ml; reflexivity. }
  assert (Hsort : sorted_by_confidence (ml ++ [q1; q2]) = q1 :: q2 :: ml).
  { unfold sorted_by_confidence. rewrite fold_right_app.
    change (fold_right insert_desc [] [q1; q2])
      with (sorted_by_confidence [q1; q2]).
    rewrite sorted_pair by reflexivity.
    now apply (model_after_quick q1 q2 eq_refl eq_refl ml 0). }
  eexists. exists q1, q2.
  split; [rewrite get_quick_replies_eq, Hquick; reflexivity |].
  split; [apply (generate_replies_eq _ _ _ _ last Hlast) |].
  cbn [suggestions new_ReplyResponse]. rewrite Hc, Hsort.
  split; [reflexivity |].
  intros Hn. unfold Py.slice_to.
  destruct (0 <=? num_suggestions request)%Z eqn:E.
  - apply firstn_Forall_quick_prefix; try reflexivity. lia.
  - apply Z.leb_gt in E. lia.
Qed.

Lemma quick_replies_outrank_model_witness :
  exists resp q1 q2,
    _get_quick_replies (_detect_intent "thanks a lot") CASUAL = Ok [q1; q2]
    /\ generate_replies ready_service 0 1
         (request_for [message_from "u2" "thanks a lot"] CASUAL 2 true)
       = Ok resp
    /\ suggestions resp
       = Py.slice_to
           (q1 :: q2 ::
            _generate_ml_replies echo_model
              (_build_context_string [message_from "u2" "thanks a lot"])
              2 100 CASUAL) 2
    /\ ((0 <= 2 <= 2)%Z ->
        Forall (fun s => is_quick_reply s = true) (suggestions resp)).
Proof.
  apply (quick_replies_outrank_model ready_service echo_model 0 1
           (request_for [message_from "u2" "thanks a lot"] CASUAL 2 true)
           (message_from "u2" "thanks a lot")
           [Decoded (_build_context_string [message_from "u2" "thanks a lot"]
                     ++ " sure, will do")%string]).
  - reflexivity.
  - reflexivity.
  - reflexivity.
  - reflexivity.
  - vm_compute. tauto.
  - reflexivity.
  - simpl. lia.
Defined.

(* ------------------------------------------------------------------ *)
(** ** The model tier *)

(** X5.  When the model tier yields nothing (the generation call raised,
    decoding raised at once, or no candidate was long enough), the call
    behaves exactly as on a service that never loaded a model. *)
Theorem empty_generation_falls_back (self : SmartReplyService) (m : Model)
    (t_start t_end : float) (request : ReplyRequest) :
  model self = Some m ->
  _generate_ml_replies m (_build_context_string (messages (context request)))
    (num_suggestions request) (max_length request) (tone request) = [] ->
  generate_replies self t_start t_end request
  = generate_replies new_SmartReplyService t_start t_end request.
Proof.
  intros Hm Hml. unfold generate_replies.
  destruct (Py.last_item (messages (context request))) as [last | e];
    [| reflexivity].
  cbn [bind]. rewrite Hm, Hml.
  destruct (initialized self); reflexivity.
Qed.

Lemma generate_raises_no_suggestions (m : Model) (context : string)
    (n max_len : Z) (t : ReplyTone) :
  generate m context n max_len = GenerateRaises ->
  _generate_ml_replies m context n max_len t = [].
Proof.
  intros H. unfold _generate_ml_replies. now rewrite H.
Qed.

Lemma empty_generation_falls_back_witness :
  let failing := {| generate := fun _ _ _ => GenerateRaises |} in
  generate_replies {| model := Some failing; initialized := true |} 0 1
    (ok_request CASUAL 3 true)
  = generate_replies new_SmartReplyService 0 1 (ok_request CASUAL 3 true).
Proof.
  intros failing.
  apply (empty_generation_falls_back
           {| model := Some failing; initialized := true |} failing 0 1
           (ok_request CASUAL 3 true)).
  - reflexivity.
  - apply generate_raises_no_suggestions. reflexivity.
Defined.

(* ------------------------------------------------------------------ *)
(** ** Cleaning *)

Lemma upper_char_not_lower (c : ascii) :
  Py.is_lower (Py.upper_char c) = false.
Proof. destruct c as [[] [] [] [] [] [] [] []]; reflexivity. Qed.

Lemma upper_char_space (c : ascii) :
  Py.is_space (Py.upper_char c) = Py.is_space c.
Proof. destruct c as [[] [] [] [] [] [] [] []]; reflexivity. Qed.

Lemma last_char_append_dot (s : string) :
  Py.last_char (s ++ ".") = Some "."%char.
Proof.
  induction s as [| c s IH]; [reflexivity |].
  cbn [String.append]. destruct s as [| d s]; [reflexivity |].
  cbn [String.append] in *. exact IH.
Qed.

Lemma last_char_nonempty (c : ascii) (s : string) :
  Py.last_char (String c s) <> None.
Proof.
  revert c. induction s as [| d s IH]; intros c; [discriminate |].
  cbn [Py.last_char]. apply IH.
Qed.

Lemma clean_reply_empty_or_sentence (raw : string) :
  _clean_reply raw = ""
  \/ (ends_sentence (_clean_reply raw) = true
      /\ starts_lowercase (_clean_reply raw) = false).
Proof.
  unfold _clean_reply.
  destruct (Py.join " " (Py.split (remove_special_tokens raw 0)))
    as [| c rest]; [left; reflexivity |].
  right.
  destruct (Py.last_char (String (Py.upper_char c) rest)) as [d |] eqn:E.
  - destruct (Py.char_in d ".!?") eqn:Hd; cbn [negb].
    + split.
      * unfold ends_sentence. now rewrite E.
      * apply upper_char_not_lower.
    + split.
      * unfold ends_sentence. now rewrite last_char_append_dot.
      * apply upper_char_not_lower.
  - exfalso. revert E. apply last_char_nonempty.
Qed.


Lemma rev_string_no_space (s : string) :
  forall a, no_space (Py.rev_string a s) = no_space a && no_space s.
Proof.
  induction s as [| c s IH]; intros a; simpl.
  - now rewrite andb_true_r.
  - rewrite IH. simpl.
    destruct (Py.is_space c), (no_space a), (no_space s); reflexivity.
Qed.

Lemma rev_string_cons_nonempty (s : string) :
  forall c a, Py.rev_string (String c a) s <> EmptyString.
Proof.
  induction s as [| d s IH]; intros c a; simpl; [discriminate | apply IH].
Qed.

Lemma rev_string_rev_string (w : string) :
  forall a b,
    Py.rev_string a (Py.rev_string b w) = Py.rev_string (w ++ a) b.
Proof.
  induction w as [| c w IH]; intros a b; simpl.
  - reflexivity.
  - rewrite IH. reflexivity.
Qed.

Lemma append_empty_r (s : string) : (s ++ "")%string = s.
Proof. induction s as [| c s IH]; simpl; congruence. Qed.

Lemma rev_string_involutive (w : string) :
  Py.rev_string "" (Py.rev_string "" w) = w.
Proof.
  rewrite rev_string_rev_string. simpl. apply append_empty_r.
Qed.

Lemma rev_string_token (c : ascii) (cur : string) :
  no_space (String c cur) = true ->
  is_token (Py.rev_string "" (String c cur)) = true.
Proof.
  intros H. unfold is_token.
  destruct (Py.rev_string "" (String c cur)) as [| d r] eqn:E.
  - exfalso. simpl in E. now apply rev_string_cons_nonempty in E.
  - rewrite <- E, rev_string_no_space. simpl in *. exact H.
Qed.

Lemma split_from_tokens (s : string) :
  forall cur,
    no_space cur = true ->
    Forall (fun w => is_token w = true) (Py.split_from cur s).
Proof.
  induction s as [| c s IH]; intros cur Hcur; simpl.
  - destruct cur as [| d cur]; constructor; [| constructor].
    now apply rev_string_token.
  - destruct (Py.is_space c) eqn:E.
    + destruct cur as [| d cur]; [now apply IH |].
      constructor; [now apply rev_string_token | now apply IH].
    + apply IH. simpl. now rewrite E, Hcur.
Qed.

Lemma split_from_token_prefix (w : string) :
  forall cur s,
    no_space w = true ->
    Py.split_from cur (w ++ s) = Py.split_from (Py.rev_string cur w) s.
Proof.
  induction w as [| c w IH]; intros cur s H; simpl.
  - reflexivity.
  - simpl in H. apply andb_true_iff in H. destruct H as [Hc Hw].
    apply negb_true_iff in Hc. rewrite Hc. now apply IH.
Qed.

Lemma split_token (w : string) :
  is_token w = true -> Py.split w = [w].
Proof.
  intros H. unfold Py.split.
  destruct w as [| c w]; [discriminate |]. unfold is_token in H.
  rewrite <- (append_empty_r (String c w)) at 1.
  rewrite split_from_token_prefix by exact H.
  cbn [Py.split_from].
  destruct (Py.rev_string "" (String c w)) as [| d r] eqn:E.
  - exfalso. simpl in E. now apply rev_string_cons_nonempty in E.
  - rewrite <- E, rev_string_involutive. reflexivity.
Qed.

Lemma split_join (ws : list string) :
  Forall (fun w => is_token w = true) ws ->
  Py.split (Py.join " " ws) = ws.
Proof.
  induction ws as [| w ws IH]; intros H; [reflexivity |].
  inversion H as [| w' ws' Hw Hws]; subst.
  destruct ws as [| w2 ws]; [now apply split_token |].
  change (Py.join " " (w :: w2 :: ws))
    with (w ++ String " "%char (Py.join " " (w2 :: ws)))%string.
  unfold Py.split.
  destruct w as [| c w]; [discriminate |]. unfold is_token in Hw.
  rewrite split_from_token_prefix by exact Hw.
  cbn [Py.split_from].
  replace (Py.is_space " ") with true by reflexivity.
  destruct (Py.rev_string "" (String c w)) as [| d r] eqn:E.
  - exfalso. simpl in E. now apply rev_string_cons_nonempty in E.
  - rewrite <- E, rev_string_involutive. f_equal.
    apply IH. exact Hws.
Qed.

Lemma string_append_assoc (a b c : string) :
  ((a ++ b) ++ c)%string = (a ++ (b ++ c))%string.
Proof. induction a as [| x a IH]; simpl; congruence. Qed.

Lemma no_space_append (a b : string) :
  no_space (a ++ b) = no_space a && no_space b.
Proof.
  induction a as [| c a IH]; simpl; [reflexivity |].
  rewrite IH. now rewrite andb_assoc.
Qed.

Lemma join_append_token (x : string) :
  no_space x = true ->
  forall ws,
    ws <> [] ->
    Forall (fun w => is_token w = true) ws ->
    exists ws',
      ws' <> []
      /\ Forall (fun w => is_token w = true) ws'
      /\ (Py.join " " ws ++ x)%string = Py.join " " ws'.
Proof.
  intros Hx. induction ws as [| w ws IH]; intros Hne H; [congruence |].
  inversion H as [| w' ws' Hw Hws]; subst.
  destruct ws as [| w2 ws].
  - exists [(w ++ x)%string]. split; [discriminate |].
    split; [| reflexivity].
    constructor; [| constructor].
    destruct w as [| c w]; [discriminate |].
    unfold is_token in *. cbn [String.append].
    change (String c (w ++ x)) with (String c w ++ x)%string.
    now rewrite no_space_append, Hw, Hx.
  - destruct (IH ltac:(discriminate) Hws) as [ws' [Hne' [Hws' Heq]]].
    exists (w :: ws'). split; [discriminate |].
    split; [now constructor |].
    destruct ws' as [| v ws']; [congruence |].
    change (Py.join " " (w :: w2 :: ws))
      with (w ++ " " ++ Py.join " " (w2 :: ws))%string.
    change (Py.join " " (w :: v :: ws'))
      with (w ++ " " ++ Py.join " " (v :: ws'))%string.
    rewrite <- Heq.
    rewrite !string_append_assoc. reflexivity.
Qed.

Lemma clean_reply_tokens (raw : string) :
  exists ws,
    Forall (fun w => is_token w = true) ws
    /\ _clean_reply raw = Py.join " " ws.
Proof.
  unfold _clean_reply.
  assert (Htok := split_from_tokens (remove_special_tokens raw 0) ""
                    eq_refl).
  fold (Py.split (remove_special_tokens raw 0)) in Htok.
  destruct (Py.split (remove_special_tokens raw 0)) as [| w r].
  - exists []. split; [constructor | reflexivity].
  - inversion Htok as [| w' r' Hw Hr]; subst.
    destruct w as [| c w]; [discriminate |].
    assert (Hcap : is_token (String (Py.upper_char c) w) = true).
    { unfold is_token in *. simpl in *.
      now rewrite upper_char_space. }
    assert (Hjoin : match Py.join " " (String c w :: r) with
                    | String c0 rest => String (Py.upper_char c0) rest
                    | EmptyString => Py.join " " (String c w :: r)
                    end
                    = Py.join " " (String (Py.upper_char c) w :: r)).
    { destruct r; reflexivity. }
    rewrite Hjoin.
    destruct (Py.last_char (Py.join " " (String (Py.upper_char c) w :: r)))
      as [d |].
    + destruct (negb (Py.char_in d ".!?")).
      * destruct (join_append_token "." eq_refl
                    (String (Py.upper_char c) w :: r))
          as [ws' [_ [Hws' Heq]]];
          [discriminate | now constructor |].
        exists ws'. split; assumption.
      * exists (String (Py.upper_char c) w :: r).
        split; [now constructor | reflexivity].
    + exists (String (Py.upper_char c) w :: r).
      split; [now constructor | reflexivity].
Qed.

Lemma clean_reply_normal (raw : string) :
  whitespace_normal (_clean_reply raw).
Proof.
  destruct (clean_reply_tokens raw) as [ws [Hws Heq]].
  unfold whitespace_normal. rewrite Heq, split_join by exact Hws.
  reflexivity.
Qed.

(** X7.  A cleaned reply is made of words separated by single spaces:
    it has no white space at either end, none but the space and no two
    spaces in a row, so collapsing its white space again changes
    nothing. *)
Theorem clean_reply_whitespace_normal (raw : string) :
  exists words,
    Forall (fun w => is_token w = true) words
    /\ _clean_reply raw = Py.join " " words
    /\ whitespace_normal (_clean_reply raw).
Proof.
  destruct (clean_reply_tokens raw) as [ws [Hws Heq]].
  exists ws. repeat split; try assumption. apply clean_reply_normal.
Qed.

Lemma ml_loop_shape (context : string) (tone : ReplyTone)
    (P : ReplySuggestion -> Prop) :
  (forall raw c,
      P {| text := _clean_reply raw; confidence := c;
           intent := _detect_intent (_clean_reply raw);
           suggestion_tone := tone; is_quick_reply := false |}) ->
  forall outputs i suggestions,
    Forall P suggestions ->
    Forall P (ml_loop context tone i outputs suggestions).
Proof.
  intros HP. induction outputs as [| o rest IH]; intros i acc Hacc; simpl.
  - assumption.
  - destruct o as [full_text |]; [| assumption].
    destruct (3 <? _)%nat; [| now apply IH].
    unfold new_ReplySuggestion.
    destruct (confidence_in_range (step_down 0.7 i)); [| assumption].
    apply IH. apply Forall_app; split; [assumption |].
    constructor; [apply HP | constructor].
Qed.

(** X8.  Every suggestion of the model tier is marked as not a quick
    reply, carries the requested tone and the intent that the classifier
    gives to its own text (not the intent of the incoming message), and its
    text is a cleaned reply: words separated by single spaces, empty or
    ending with [.], [!] or [?]. *)
Theorem model_suggestions_shape (m : Model) (context : string)
    (n max_len : Z) (t : ReplyTone) (s : ReplySuggestion) :
  In s (_generate_ml_replies m context n max_len t) ->
  is_quick_reply s = false
  /\ suggestion_tone s = t
  /\ intent s = _detect_intent (text s)
  /\ whitespace_normal (text s)
  /\ (text s = "" \/ ends_sentence (text s) = true).
Proof.
  intros Hin.
  assert (F : Forall
                (fun s => is_quick_reply s = false
                          /\ suggestion_tone s = t
                          /\ intent s = _detect_intent (text s)
                          /\ whitespace_normal (text s)
                          /\ (text s = "" \/ ends_sentence (text s) = true))
                (_generate_ml_replies m context n max_len t)).
  { unfold _generate_ml_replies.
    destruct (generate m context n max_len); [constructor |].
    apply ml_loop_shape; [| constructor].
    intros raw c. cbn [text intent suggestion_tone is_quick_reply].
    repeat split.
    - apply clean_reply_normal.
    - destruct (clean_reply_empty_or_sentence raw) as [H | [H _]]; auto. }
  rewrite Forall_forall in F. now apply F.
Qed.

Lemma model_suggestions_shape_witness :
  let s := {| text := "Sure, will do."; confidence := 0.7;
              intent := GENERAL; suggestion_tone := FRIENDLY;
              is_quick_reply := false |} in
  is_quick_reply s = false
  /\ suggestion_tone s = FRIENDLY
  /\ intent s = _detect_intent (text s)
  /\ whitespace_normal (text s)
  /\ (text s = "" \/ ends_sentence (text s) = true).
Proof.
  intros s.
  apply (model_suggestions_shape echo_model "u2: thanks" 3 100 FRIENDLY s).
  vm_compute. left. reflexivity.
Defined.

(* ------------------------------------------------------------------ *)
(** ** Context string and summary *)

Lemma slice_from_last_five {A : Type} (older recent : list A) :
  List.length recent = 5%nat ->
  Py.slice_from (older ++ recent) (- settings.MAX_CONTEXT_MESSAGES) = recent.
Proof.
  intros H. unfold Py.slice_from, settings.MAX_CONTEXT_MESSAGES.
  cbn [Z.leb Z.opp Z.compare Z.to_nat].
  rewrite length_app, H.
  replace (List.length older + 5 - Pos.to_nat 5)%nat
    with (List.length older) by lia.
  rewrite skipn_app, skipn_all, Nat.sub_diag. reflexivity.
Qed.

(** X9.  The context string is built from the last five messages only:
    messages before them do not change it. *)
Theorem context_string_last_five (older recent : list Message) :
  List.length recent = 5%nat ->
  _build_context_string (older ++ recent) = _build_context_string recent.
Proof.
  intros H. unfold _build_context_string.
  rewrite (slice_from_last_five older recent H).
  assert (H0 := slice_from_last_five [] recent H).
  cbn [app] in H0. rewrite H0. reflexivity.
Qed.

Lemma context_string_last_five_witness :
  let recent := [message_from "a" "one"; message_from "b" "two";
                 message_from "a" "three"; message_from "b" "four";
                 message_from "a" "five"] in
  _build_context_string ([message_from "c" "zero"] ++ recent)
  = _build_context_string recent.
Proof.
  intros recent.
  apply (context_string_last_five [message_from "c" "zero"] recent).
  reflexivity.
Defined.

Lemma nodup_length_le (l : list string) :
  (List.length (nodup string_dec l) <= List.length l)%nat.
Proof.
  induction l as [| x l IH]; simpl; [lia |].
  destruct (in_dec string_dec x l); simpl; lia.
Qed.

(** X10.  For a non-empty message list the summary is not the "no
    context" sentence, and the number of participants it reports is at
    least one and at most the number of messages. *)
Theorem summary_participants_bounds (msgs : list Message) :
  msgs <> [] ->
  _summarize_context msgs <> "No context available"
  /\ (1 <= unique_senders msgs <= List.length msgs)%nat
  /\ _summarize_context msgs
     = ("Conversation with " ++ Py.str_of_nat (unique_senders msgs)
        ++ " participant(s), " ++ Py.str_of_nat (List.length msgs)
        ++ " recent message(s)")%string.
Proof.
  intros Hne. destruct msgs as [| x l]; [congruence |].
  split; [simpl; discriminate |].
  split; [| reflexivity].
  unfold unique_senders. split.
  - assert (Hin : In (sender_id x) (nodup string_dec (map sender_id (x :: l))))
      by (apply nodup_In; left; reflexivity).
    destruct (nodup string_dec (map sender_id (x :: l))); [destruct Hin |].
    simpl. lia.
  - rewrite <- (length_map sender_id (x :: l)). apply nodup_length_le.
Qed.

Lemma summary_participants_bounds_witness :
  let msgs := [message_from "a" "hi"; message_from "b" "hello";
               message_from "a" "how are you?"] in
  _summarize_context msgs <> "No context available"
  /\ (1 <= unique_senders msgs <= List.length msgs)%nat
  /\ _summarize_context msgs
     = ("Conversation with " ++ Py.str_of_nat (unique_senders msgs)
        ++ " participant(s), " ++ Py.str_of_nat (List.length msgs)
        ++ " recent message(s)")%string.
Proof.
  intros msgs. apply (summary_participants_bounds msgs). discriminate.
Defined.

(* ------------------------------------------------------------------ *)
(** ** More on the classifier *)




Lemma lower_length (s : string) : String.length (Py.lower s) = String.length s.
Proof.
  unfold Py.lower. induction s as [| c s IH]; simpl; congruence.
Qed.

Lemma append_length (s t : string) :
  String.length (s ++ t) = (String.length s + String.length t)%nat.
Proof. induction s as [| c s IH]; simpl; congruence. Qed.

Lemma drop_lower_append (s t : string) :
  Py.drop (String.length s) (Py.lower (s ++ t)) = Py.lower t.
Proof.
  unfold Py.lower. induction s as [| c s IH]; simpl.
  - destruct (Py.map_string Py.lower_char t); reflexivity.
  - exact IH.
Qed.

Lemma question_mark_found (s : string) :
  Re.search true question_pattern (Py.lower (s ++ "?")) = true.
Proof.
  unfold Re.search. apply existsb_exists.
  exists (String.length s). split.
  - apply in_seq. rewrite lower_length, append_length. simpl. lia.
  - unfold Re.matches_at, question_pattern.
    cbn [Re.ends]. rewrite drop_lower_append.
    replace (Re.lit_prefix true "?" (Py.lower "?")) with true by reflexivity.
    cbn [flat_map String.length].
    assert (Hend : Re.at_end (Py.lower (s ++ "?")) (String.length s + 1) = true).
    { unfold Re.at_end. rewrite lower_length, append_length. simpl.
      now rewrite Nat.eqb_refl. }
    rewrite Hend. reflexivity.
Qed.

(** X12.  A message that ends with a question mark is never classified
    as general: if no earlier rule takes it, the question rule does. *)
Theorem question_mark_not_general (s : string) :
  In (_detect_intent (s ++ "?")) [GREETING; FAREWELL; THANKS; QUESTION].
Proof.
  unfold _detect_intent, intent_patterns. cbn [first_match].
  rewrite question_mark_found.
  repeat match goal with
         | |- context [if ?b then _ else _] => destruct b
         end; simpl; tauto.
Qed.

(** X13.  [get_quick_replies] never answers with the intents
    acknowledge, agree, disagree, answer or suggestion, because the
    classifier never yields them; the replies are always one of the
    acknowledge, greeting, farewell, thanks and question sets, so the
    agree and disagree templates are never served. *)
Theorem quick_replies_reachable_sets (request : QuickReplyRequest) :
  exists resp i,
    get_quick_replies request = Ok resp
    /\ ~ In (quick_intent resp)
          [ACKNOWLEDGE; AGREE; DISAGREE; ANSWER; SUGGESTION]
    /\ In i [ACKNOWLEDGE; GREETING; FAREWELL; THANKS; QUESTION]
    /\ template_set i = Ok (replies resp).
Proof.
  unfold get_quick_replies.
  assert (H := detect_intent_range (last_message request)).
  simpl in H.
  destruct H as [H | [H | [H | [H | [H | []]]]]]; rewrite <- H;
    eexists; [exists GREETING | exists FAREWELL | exists THANKS
              | exists QUESTION | exists ACKNOWLEDGE];
    (split; [reflexivity |]);
    (split; [simpl; intuition discriminate |]);
    (split; [simpl; tauto | reflexivity]).
Qed.

(** X14.  [_get_quick_replies] never raises and returns at most two
    suggestions, all marked as quick replies and tagged with the given
    intent and tone; their texts are the tone-adapted first two templates
    of the intent, and there are none exactly for the intents without a
    template set. *)
Theorem get_quick_replies_contract (i : ReplyIntent) (t : ReplyTone) :
  exists l,
    _get_quick_replies i t = Ok l
    /\ (List.length l <= 2)%nat
    /\ Forall (fun s => is_quick_reply s = true /\ intent s = i
                        /\ suggestion_tone s = t) l
    /\ map text l
       = map (fun template => _adjust_for_tone template t)
           (firstn 2 (match template_set i with Ok src => src | Raise _ => [] end))
    /\ (l = [] <-> In i [ANSWER; SUGGESTION; GENERAL]).
Proof.
  eexists. split; [apply get_quick_replies_eq |].
  destruct i; cbn; repeat split; try lia; repeat constructor;
    try discriminate; intuition discriminate.
Qed.

(* ------------------------------------------------------------------ *)
(** ** Start-up and routes *)

(** X15.  After [initialize] the backend is available exactly when the
    loading ran to its end.  A load that raised at any step leaves a
    service that answers every request as a service without a model does,
    even when a model object had been assigned before the exception or by
    an earlier successful load. *)
Theorem failed_load_serves_templates (self : SmartReplyService)
    (o : load_outcome) (t_start t_end : float) (request : ReplyRequest) :
  (backend_available (initialize self o) = true <-> exists m, o = Loaded m)
  /\ ((forall m, o <> Loaded m) ->
      generate_replies (initialize self o) t_start t_end request
      = generate_replies new_SmartReplyService t_start t_end request).
Proof.
  split.
  - destruct o as [| m | m]; cbn; split; intros H;
      try discriminate; try (destruct H; discriminate);
      try reflexivity.
    now exists m.
  - intros Hfail. destruct o as [| m | m].
    + unfold generate_replies. cbn [initialize initialized model].
      reflexivity.
    + unfold generate_replies. cbn [initialize initialized model].
      reflexivity.
    + exfalso. now apply (Hfail m).
Qed.

Lemma failed_load_serves_templates_witness :
  generate_replies (initialize ready_service (PadTokenRaises echo_model)) 0 1
    (ok_request CASUAL 3 true)
  = generate_replies new_SmartReplyService 0 1 (ok_request CASUAL 3 true).
Proof.
  apply (failed_load_serves_templates ready_service
           (PadTokenRaises echo_model) 0 1 (ok_request CASUAL 3 true)).
  intros m. discriminate.
Defined.

(** X16.  Neither route ends with an exception of the service.  The
    suggestion route answers an empty message list with status 400 and any
    other request, whatever its [num_suggestions], with the response of
    [generate_replies]; the quick-reply route always returns. *)
Theorem routes_never_unhandled (reply_service : SmartReplyService)
    (t_start t_end : float) (request : ReplyRequest)
    (quick_request : QuickReplyRequest) :
  ((messages (context request) = []
    /\ suggest_replies reply_service t_start t_end request
       = HTTPException 400 "At least one message is required in the context")
   \/ (messages (context request) <> []
       /\ exists resp,
            generate_replies reply_service t_start t_end request = Ok resp
            /\ suggest_replies reply_service t_start t_end request
               = Returned resp))
  /\ (exists quick_resp, quick_replies quick_request = Returned quick_resp).
Proof.
  split.
  - unfold suggest_replies.
    destruct (messages (context request)) as [| x l] eqn:E.
    + left. split; reflexivity.
    + right. split; [discriminate |].
      destruct (last_item_nonempty (x :: l)) as [last Hlast]; [discriminate |].
      rewrite <- E in Hlast.
      rewrite (generate_replies_eq _ _ _ _ last Hlast).
      eexists. split; reflexivity.
  - unfold quick_replies, get_quick_replies. cbn.
    eexists. reflexivity.
Qed.

(* ------------------------------------------------------------------ *)
(** ** How many suggestions come back *)

Lemma template_suggestions_length (base : float) (i : ReplyIntent)
    (t : ReplyTone) :
  forall templates k,
    List.length (template_suggestions base i t k templates)
    = List.length templates.
Proof.
  induction templates as [| x l IH]; intros k; simpl; congruence.
Qed.

Lemma slice_to_length_positive {A : Type} (l : list A) (n : Z) :
  (1 <= n)%Z -> l <> [] -> Py.slice_to l n <> [].
Proof.
  intros Hn Hl. unfold Py.slice_to.
  destruct (0 <=? n)%Z eqn:E; [| apply Z.leb_gt in E; lia].
  destruct l as [| x l]; [congruence |].
  destruct (Z.to_nat n) as [| k] eqn:Ek; [lia |]. simpl. discriminate.
Qed.

Lemma sorted_by_confidence_nonempty (l : list ReplySuggestion) :
  l <> [] -> sorted_by_confidence l <> [].
Proof.
  intros Hl E. apply (f_equal (@List.length _)) in E.
  rewrite sorted_by_confidence_length in E.
  destruct l; [congruence | discriminate].
Qed.

Lemma collected_nonempty (self : SmartReplyService) (request : ReplyRequest)
    (last : Message) :
  (1 <= num_suggestions request)%Z -> collected self request last <> [].
Proof.
  intros Hn. unfold collected.
  match goal with
  | |- match ?l with [] => _ | _ :: _ => _ end <> [] => destruct l
  end; [| discriminate].
  intros E. apply (f_equal (@List.length _)) in E.
  rewrite template_suggestions_length in E.
  assert (H := slice_to_length_positive
                 (templates_or_acknowledge (_detect_intent (content last)))
                 (num_suggestions request) Hn).
  assert (H' := templates_or_acknowledge_length (_detect_intent (content last))).
  destruct (Py.slice_to _ _); [| discriminate].
  apply H; [| reflexivity].
  intros E'. rewrite E' in H'. simpl in H'. lia.
Qed.

(** X17.  Every request that satisfies the schema gets at least one
    suggestion, in every state of the backend: when the model and the
    quick replies contribute nothing, the fallback templates do. *)
Theorem response_never_empty (self : SmartReplyService)
    (t_start t_end : float) (request : ReplyRequest) :
  valid_ReplyRequest request ->
  exists resp,
    generate_replies self t_start t_end request = Ok resp
    /\ suggestions resp <> [].
Proof.
  intros Hv. destruct (valid_request_last request Hv) as [last Hlast].
  assert (Hn : (1 <= num_suggestions request)%Z) by (destruct Hv; tauto).
  eexists. split; [apply (generate_replies_eq _ _ _ _ last Hlast) |].
  cbn [suggestions new_ReplyResponse].
  apply slice_to_length_positive; [exact Hn |].
  apply sorted_by_confidence_nonempty. now apply collected_nonempty.
Qed.

Lemma response_never_empty_witness :
  exists resp,
    generate_replies
      {| model := Some {| generate := fun _ _ _ => Outputs [DecodeRaises] |};
         initialized := true |} 0 1 (ok_request FRIENDLY 1 true) = Ok resp
    /\ suggestions resp <> [].
Proof.
  apply (response_never_empty
           {| model := Some {| generate := fun _ _ _ => Outputs [DecodeRaises] |};
              initialized := true |} 0 1 (ok_request FRIENDLY 1 true)).
  apply ok_request_valid. lia.
Defined.

Lemma collected_without_backend_length (self : SmartReplyService)
    (request : ReplyRequest) (last : Message) :
  backend_available self = false ->
  (List.length (collected self request last) <= 4)%nat.
Proof.
  intros Hb. unfold collected, backend_available in *.
  assert (Hml : match initialized self, model self with
                | true, Some m =>
                    _generate_ml_replies m
                      (_build_context_string (messages (context request)))
                      (num_suggestions request) (max_length request)
                      (tone request)
                | _, _ => []
                end = []).
  { destruct (initialized self), (model self); simpl in Hb;
      try discriminate; reflexivity. }
  rewrite Hml. cbn [app].
  assert (Hq : forall src : list string,
             (List.length
                (template_suggestions 0.8 (_detect_intent (content last))
                   (tone request) 0 (Py.slice_to src 2)) <= 4)%nat).
  { intros src. rewrite template_suggestions_length.
    assert (H := slice_to_length_bound src 2). lia. }
  assert (Hf : (List.length
                  (template_suggestions 0.6 (_detect_intent (content last))
                     (tone request) 0
                     (Py.slice_to
                        (templates_or_acknowledge (_detect_intent (content last)))
                        (num_suggestions request))) <= 4)%nat).
  { rewrite template_suggestions_length.
    assert (H := slice_to_length_le
                   (templates_or_acknowledge (_detect_intent (content last)))
                   (num_suggestions request)).
    assert (H' := templates_or_acknowledge_length (_detect_intent (content last))).
    lia. }
  destruct (include_quick_replies request).
  - match goal with
    | |- (List.length match ?l with [] => _ | _ :: _ => _ end <= 4)%nat =>
        assert (Hl : (List.length l <= 4)%nat) by apply Hq;
        destruct l
    end; [exact Hf | exact Hl].
  - exact Hf.
Qed.

(** X18.  Without a backend a response never holds more than four
    suggestions, so a request for five is never served in full. *)
Theorem without_backend_at_most_four (self : SmartReplyService)
    (t_start t_end : float) (request : ReplyRequest) (resp : ReplyResponse) :
  backend_available self = false ->
  generate_replies self t_start t_end request = Ok resp ->
  (List.length (suggestions resp) <= 4)%nat.
Proof.
  intros Hb H.
  destruct (Py.last_item (messages (context request))) as [last | e] eqn:Hlast.
  - rewrite (generate_replies_eq _ _ _ _ last Hlast) in H.
    inversion H; subst. cbn [suggestions new_ReplyResponse].
    assert (H1 := slice_to_length_le
                    (sorted_by_confidence (collected self request last))
                    (num_suggestions request)).
    rewrite sorted_by_confidence_length in H1.
    assert (H2 := collected_without_backend_length self request last Hb).
    lia.
  - unfold generate_replies in H. rewrite Hlast in H. discriminate.
Qed.

Lemma without_backend_at_most_four_witness :
  exists resp,
    generate_replies new_SmartReplyService 0 1 (ok_request CASUAL 5 true)
    = Ok resp
    /\ (List.length (suggestions resp) <= 4)%nat.
Proof.
  eexists. split; [vm_compute; reflexivity |].
  apply (without_backend_at_most_four new_SmartReplyService 0 1
           (ok_request CASUAL 5 true)).
  - reflexivity.
  - vm_compute. reflexivity.
Defined.

Lemma ml_loop_stops_at_decode_error (context : string) (t : ReplyTone)
    (post : list decode_outcome) :
  forall pre i suggestions,
    ml_loop context t i (pre ++ DecodeRaises :: post) suggestions
    = ml_loop context t i pre suggestions.
Proof.
  induction pre as [| o pre IH]; intros i acc; simpl; [reflexivity |].
  destruct o as [full_text |]; [| reflexivity].
  destruct (3 <? _)%nat; [| apply IH].
  destruct (new_ReplySuggestion _ _ _ _ _); [apply IH | reflexivity].
Qed.

(** X19.  When decoding raises on a returned sequence, the suggestions
    built from the sequences before it are kept and the sequences after it
    are ignored: the tier returns what it returns for a backend that
    produced only the earlier sequences. *)
Theorem decode_error_keeps_earlier (m m' : Model) (context : string)
    (n max_len : Z) (t : ReplyTone) (pre post : list decode_outcome) :
  generate m context n max_len = Outputs (pre ++ DecodeRaises :: post) ->
  generate m' context n max_len = Outputs pre ->
  _generate_ml_replies m context n max_len t
  = _generate_ml_replies m' context n max_len t.
Proof.
  intros H H'. unfold _generate_ml_replies. rewrite H, H'.
  apply ml_loop_stops_at_decode_error.
Qed.

Lemma decode_error_keeps_earlier_witness :
  let broken :=
    {| generate := fun c _ _ =>
         Outputs ([Decoded (c ++ " sure, will do")%string]
                  ++ DecodeRaises :: [Decoded (c ++ " never seen")%string]) |} in
  _generate_ml_replies broken "u2: ok" 3 100 CASUAL
  = _generate_ml_replies echo_model "u2: ok" 3 100 CASUAL.
Proof.
  intros broken.
  apply (decode_error_keeps_earlier broken echo_model "u2: ok" 3 100 CASUAL
           [Decoded ("u2: ok" ++ " sure, will do")%string]
           [Decoded ("u2: ok" ++ " never seen")%string]).
  - reflexivity.
  - reflexivity.
Defined.
